(** * LicenseCheck: the report pipeline of [licensecheck/__init__.py]

    A shallow embedding of [_doSysExec], [getdepsLicenses] and [cli], with the
    collaborators they call (subprocess, the file system, the
    [requirements] parser, and the sibling modules [packageinfo],
    [license_matrix] and [formatter]) gathered in one interface record.
    Effects are explicit: a computation yields the events it performed, in
    order, and either a value or the Python exception that stopped it. *)

From Stdlib Require Import ZArith Lia Ascii String.
From stdpp Require Import base strings list gmap.

Local Open Scope string_scope.
Local Open Scope list_scope.
Local Open Scope Z_scope.

(** ** Python strings

    A [str] is modelled as a Rocq [string] whose characters are the code
    points below 256. *)

Module PyStr.

Definition code (c : ascii) : N := N_of_ascii c.

(** [str.isspace] on one character: TAB, LF, VT, FF, CR, FS, GS, RS, US,
    SPACE, NEL and NBSP are the whitespace code points below 256. *)
Definition isspace (c : ascii) : bool :=
  let n := code c in
  ((9 <=? n) && (n <=? 13) || (28 <=? n) && (n <=? 32)
   || (n =? 133) || (n =? 160))%N.

(** Line boundaries of [str.splitlines] other than CR (treated apart
    because CR LF is one boundary): LF, VT, FF, FS, GS, RS and NEL. *)
Definition islinebreak (c : ascii) : bool :=
  let n := code c in
  ((10 <=? n) && (n <=? 12) || (28 <=? n) && (n <=? 30) || (n =? 133))%N.

Definition snoc (s : string) (c : ascii) : string :=
  String.append s (String c "").

Definition flush (cur : string) (rest : list string) : list string :=
  match cur with
  | "" => rest
  | _ => cur :: rest
  end.

(** [s.split()] with no separator: maximal runs of non-whitespace. *)
Fixpoint split_from (cur s : string) : list string :=
  match s with
  | "" => flush cur []
  | String c s' =>
      if isspace c then flush cur (split_from "" s')
      else split_from (snoc cur c) s'
  end.

Definition split (s : string) : list string := split_from "" s.

(** [s.splitlines(False)]: the lines without their terminators; a
    terminator closes the current line even when it is empty, and no
    line is produced after the last terminator. *)
Fixpoint splitlines_from (cur s : string) : list string :=
  match s with
  | "" => flush cur []
  | String c s' =>
      if Ascii.eqb c "013" then
        match s' with
        | String "010" s'' => cur :: splitlines_from "" s''
        | _ => cur :: splitlines_from "" s'
        end
      else if islinebreak c then cur :: splitlines_from "" s'
      else splitlines_from (snoc cur c) s'
  end.

Definition splitlines (s : string) : list string := splitlines_from "" s.

(** Every character of [s] is whitespace (so also: [s] is empty). *)
Fixpoint blank (s : string) : bool :=
  match s with
  | "" => true
  | String c s' => isspace c && blank s'
  end.

End PyStr.

(** [shlex.split] on a command without quotes, escapes or comments, which
    is all [getdepsLicenses] passes to it: the words between runs of the
    shlex whitespace characters (space, TAB, CR, LF). *)
Module Shlex.

Definition iswhite (c : ascii) : bool :=
  let n := PyStr.code c in
  ((n =? 32) || (n =? 9) || (n =? 13) || (n =? 10))%N.

Fixpoint split_from (cur s : string) : list string :=
  match s with
  | "" => PyStr.flush cur []
  | String c s' =>
      if iswhite c then PyStr.flush cur (split_from "" s')
      else split_from (PyStr.snoc cur c) s'
  end.

Definition split (s : string) : list string := split_from "" s.

End Shlex.

(** ** Data model *)

(** Modelled from the spec: the enumeration of license categories, which
    [license_matrix] declares and the report pipeline only passes around.
    The spec lists the closed set of tags. *)
Inductive LicenseCategory : Type :=
  | permissive
  | weak_copyleft
  | strong_copyleft
  | proprietary
  | public_domain
  | unknown.

#[global] Instance LicenseCategory_eq_dec : EqDecision LicenseCategory.
Proof. solve_decision. Defined.

(** Modelled from the spec: the record [packageinfo.getPackages] returns
    for each dependency (the type is declared in a sibling module). *)
Record PackageInfo : Type := mkPackageInfo {
  name : string;
  version : string;
  license : string;
  homepage : option string;
  author : option string
}.

(** The dictionary built by the [PackageCompat] constructor from the
    unpacked package and [license_compat]: the package's fields and the
    verdict. *)
Record PackageCompat : Type := mkPackageCompat {
  package : PackageInfo;
  license_compat : bool
}.

(** A parsed line of requirements.txt: only [name] is read, and the
    parser leaves it [None] for a line that names no distribution. *)
Record Requirement : Type := mkRequirement {
  req_name : option string
}.

(** The namespace [parser.parse_args()] returns. *)
Record Args : Type := mkArgs {
  format : option string;
  file : option string
}.

(** An open text file: the name it was opened under and, when opened for
    reading, its text. *)
Record File : Type := mkFile {
  file_name : string;
  file_text : string
}.

(** ** Effects *)

Inductive exn : Type :=
  | IndexError
  | KeyError
  | OSError (path : string)
  | SystemExit (status : Z)
  | ExternalError (what : string).

Inductive result (A : Type) : Type :=
  | Ok (a : A)
  | Raise (e : exn).
Arguments Ok {A} a.
Arguments Raise {A} e.

Inductive stream : Type :=
  | Stdout
  | ToFile (f : File).

(** The two places [license_matrix.licenseType] is called from. *)
Inductive site : Type :=
  | ProjectSide
  | DependencySide.

(** What a run does to the outside world, and which collaborators it
    calls, in program order. *)
Inductive event : Type :=
  | EExec (argv : list string)
  | EWarn (msg : string) (* [warnings.warn], which reports and goes on *)
  | EOpen (path mode : string)
  | EParseRequirements (text : string)
  | EGetMyPackageLicense
  | ELicenseType (at_ : site) (text : string)
  | EGetPackages (reqs : list (option string))
  | EDepCompatibleLice (my : LicenseCategory) (dep : list LicenseCategory)
  | EPrint (to : stream) (text : string).

(** A computation: the events performed, then the outcome. *)
Definition M (A : Type) : Type := (list event * result A)%type.

Definition ret {A} (a : A) : M A := ([], Ok a).
Definition raise {A} (e : exn) : M A := ([], Raise e).
Definition emit (ev : event) : M unit := ([ev], Ok tt).
Definition lift {A} (r : result A) : M A := ([], r).

Definition bind {A B} (m : M A) (k : A -> M B) : M B :=
  match m with
  | (evs, Ok a) => let '(evs', r) := k a in (evs ++ evs', r)
  | (evs, Raise e) => (evs, Raise e)
  end.

Definition events {A} (m : M A) : list event := fst m.
Definition outcome {A} (m : M A) : result A := snd m.

Arguments bind : simpl never.
Arguments ret : simpl never.
Arguments raise : simpl never.
Arguments emit : simpl never.
Arguments lift : simpl never.

Declare Scope py_scope.
Delimit Scope py_scope with py.
Notation "'let*' x ':=' m 'in' k" := (bind m (fun x => k))
  (at level 10, x pattern, m at level 100, k at level 200) : py_scope.
Notation "m ';;' k" := (bind m (fun _ => k))
  (at level 100, k at level 200, right associativity) : py_scope.
Local Open Scope py_scope.

(** ** Collaborators *)

(** Everything [licensecheck/__init__.py] imports and calls. The three
    functions of [license_matrix] and [formatter] are pure; the others
    may raise. Taken to return every time: the subprocess call (its
    output decodes), [warnings.warn] (default filter), the classifier,
    the compatibility check, the formatters and [print]. What is proved
    below speaks of runs in which they do. *)
Record Env : Type := mkEnv {
  (** [subprocess.Popen(argv, shell=True, stdout=PIPE, stderr=STDOUT,
      universal_newlines=True)]: return code and captured text. *)
  popen : list string -> Z * string;
  (** [open(path, mode)]. *)
  open_ : string -> string -> result File;
  (** [requirements.parse(file)], run to exhaustion. *)
  requirements_parse : File -> result (list Requirement);
  (** [packageinfo.getMyPackageLicense()]. *)
  getMyPackageLicense : result string;
  (** [packageinfo.getPackages(reqs)]. *)
  getPackages : list (option string) -> result (list PackageInfo);
  (** [license_matrix.licenseType(text)]: subscripted by the caller, so a
      sequence of categories. *)
  licenseType : string -> list LicenseCategory;
  (** [license_matrix.depCompatibleLice(myLice, depLice)]. *)
  depCompatibleLice : LicenseCategory -> list LicenseCategory -> bool;
  (** [formatter.json], [markdown], [csv], [ansi], [simple]. *)
  formatter_json : list PackageCompat -> string;
  formatter_markdown : list PackageCompat -> string;
  formatter_csv : list PackageCompat -> string;
  formatter_ansi : list PackageCompat -> string;
  formatter_simple : list PackageCompat -> string;
  (** [argparse.ArgumentParser.parse_args()] on the process arguments. *)
  parse_args : result Args
}.

(** ** The program *)

Section Program.

Variable E : Env.

(** [_doSysExec(command)] *)
Definition _doSysExec (command : string) : M (Z * string) :=
  let argv := Shlex.split command in
  emit (EExec argv) ;;
  ret (popen E argv).

(** [xs[0]] *)
Definition index0 {A} (xs : list A) : M A :=
  match xs with
  | [] => raise IndexError
  | x :: _ => ret x
  end.

(** The loop of lines 55-57: [reqs] is the list built so far. *)
Fixpoint poetry_loop (lines : list string) (reqs : list (option string))
  : M (list (option string)) :=
  match lines with
  | [] => ret reqs
  | line :: rest =>
      let parts := PyStr.split line in
      let* p := index0 parts in
      poetry_loop rest (reqs ++ [Some p])
  end.

(** The loop of lines 60-61. *)
Fixpoint requirements_loop (parsed : list Requirement)
  (reqs : list (option string)) : list (option string) :=
  match parsed with
  | [] => reqs
  | req :: rest => requirements_loop rest (reqs ++ [req_name req])
  end.

(** Lines 45-61 of [getdepsLicenses]: the list of requirement names. *)
Definition enumerate : M (list (option string)) :=
  let* probe := _doSysExec "poetry -h" in
  let* poetryInstalled :=
    if decide (fst probe <> 0) then
      emit (EWarn "poetry is not on the system path") ;; ret false
    else ret true in
  let reqs := [] in
  if (poetryInstalled : bool) then
    let* shown := _doSysExec "poetry show" in
    let lines := PyStr.splitlines (snd shown) in
    poetry_loop lines reqs
  else
    emit (EOpen "requirements.txt" "r") ;;
    let* requirementsTxt := lift (open_ E "requirements.txt" "r") in
    emit (EParseRequirements (file_text requirementsTxt)) ;;
    let* parsed := lift (requirements_parse E requirementsTxt) in
    ret (requirements_loop parsed reqs).

(** [license_matrix.licenseType(text)], with the call recorded. *)
Definition call_licenseType (at_ : site) (text : string)
  : M (list LicenseCategory) :=
  emit (ELicenseType at_ text) ;; ret (licenseType E text).

(** [license_matrix.depCompatibleLice(myLice, depLice)], recorded. *)
Definition call_depCompatibleLice (myLice : LicenseCategory)
  (depLice : list LicenseCategory) : M bool :=
  emit (EDepCompatibleLice myLice depLice) ;;
  ret (depCompatibleLice E myLice depLice).

(** The loop of lines 67-70: [depsLicenses] is the list built so far. *)
Fixpoint assemble (myLice : LicenseCategory) (packages : list PackageInfo)
  (depsLicenses : list PackageCompat) : M (list PackageCompat) :=
  match packages with
  | [] => ret depsLicenses
  | package :: rest =>
      let* depLice := call_licenseType DependencySide (license package) in
      let* compat := call_depCompatibleLice myLice depLice in
      assemble myLice rest (depsLicenses ++ [mkPackageCompat package compat])
  end.

(** The argument vectors of the two commands. *)
Definition probe_argv : list string := ["poetry"; "-h"].
Definition show_argv : list string := ["poetry"; "show"].

(** What the enumerator does before reading requirements.txt. *)
Definition fallback_prefix : list event :=
  [EExec probe_argv; EWarn "poetry is not on the system path";
   EOpen "requirements.txt" "r"].

(** The calls between the enumerator and the assembling loop. *)
Definition project_calls (myLiceTxt : string) (reqs : list (option string))
  : list event :=
  [EGetMyPackageLicense; ELicenseType ProjectSide myLiceTxt;
   EGetPackages reqs].

(** The calls one iteration of the assembling loop makes. *)
Definition iteration_calls (myLice : LicenseCategory) (p : PackageInfo)
  : list event :=
  [ELicenseType DependencySide (license p);
   EDepCompatibleLice myLice (licenseType E (license p))].

(** The record one iteration of the assembling loop appends. *)
Definition iteration_record (myLice : LicenseCategory) (p : PackageInfo)
  : PackageCompat :=
  mkPackageCompat p (depCompatibleLice E myLice (licenseType E (license p))).

(** [getdepsLicenses()] *)
Definition getdepsLicenses : M (list PackageCompat) :=
  let* reqs := enumerate in
  emit EGetMyPackageLicense ;;
  let* myLiceTxt := lift (getMyPackageLicense E) in
  let* myLices := call_licenseType ProjectSide myLiceTxt in
  let* myLice := index0 myLices in
  let depsLicenses := [] in
  emit (EGetPackages reqs) ;;
  let* packages := lift (getPackages E reqs) in
  assemble myLice packages depsLicenses.

(** [FORMAT_HELP] *)
Definition FORMAT_HELP : string :=
  "Output format. One of simple, ansi, json, markdown, csv. default=simple".

(** [formatMap], the dictionary of lines 85-87. *)
Definition formatMap : gmap string (list PackageCompat -> string) :=
  {[ "json" := formatter_json E;
     "markdown" := formatter_markdown E;
     "csv" := formatter_csv E;
     "ansi" := formatter_ansi E;
     "simple" := formatter_simple E ]}.

(** [print(text, file=to)] *)
Definition print (text : string) (to : stream) : M unit :=
  emit (EPrint to text).

(** [sys.exit(status)] *)
Definition sysexit {A} (status : Z) : M A := raise (SystemExit status).

(** Line 83: the stream the report goes to. *)
Definition open_target (args : Args) : M stream :=
  match file args with
  | None => ret Stdout
  | Some path =>
      emit (EOpen path "w") ;;
      let* f := lift (open_ E path "w") in
      ret (ToFile f)
  end.

(** [cli()] *)
Definition cli : M unit :=
  let* args := lift (parse_args E) in
  let* filename := open_target args in
  match format args with
  | None =>
      let* deps := getdepsLicenses in
      print (formatter_simple E deps) filename
  | Some fmt =>
      match formatMap !! fmt with
      | Some render =>
          let* deps := getdepsLicenses in
          print (render deps) filename
      | None =>
          print FORMAT_HELP Stdout ;;
          sysexit 1
      end
  end.

End Program.

(** ** Observations on a run *)

(** The format names the help text lists. *)
Definition format_names : list string :=
  ["simple"; "ansi"; "json"; "markdown"; "csv"].

(** A call of the classifier on the project's own license. *)
Definition is_project_classification (ev : event) : bool :=
  match ev with
  | ELicenseType ProjectSide _ => true
  | _ => false
  end.

(** The arguments of a compatibility check. *)
Definition check_args (ev : event)
  : option (LicenseCategory * list LicenseCategory) :=
  match ev with
  | EDepCompatibleLice my dep => Some (my, dep)
  | _ => None
  end.

(** Something was written to a stream. *)
Definition is_print (ev : event) : bool :=
  match ev with
  | EPrint _ _ => true
  | _ => false
  end.


(** [cli] printed the format help to standard output and left with
    status 1. *)
Definition rejects_format (E : Env) : Prop :=
  EPrint Stdout FORMAT_HELP ∈ events (cli E) /\
  outcome (cli E) = Raise (SystemExit 1).

(** [getdepsLicenses] returned a report with a record for the dependency
    called [n]. *)
Definition reports_on (E : Env) (n : string) : Prop :=
  exists out r, outcome (getdepsLicenses E) = Ok out /\ r ∈ out /\
    name (package r) = n.

(** ** The classifier and the compatibility table of [license_matrix]

    [licensecheck/__init__.py] only calls this module; what follows
    renders sections 4.1 and 4.2 of the specification. *)

Module LicenseMatrix.

(** *** Case-insensitive substring matching *)

Definition lower (c : ascii) : ascii :=
  let n := PyStr.code c in
  if ((65 <=? n) && (n <=? 90))%N then ascii_of_N (n + 32) else c.

Fixpoint prefix_ci (k s : string) : bool :=
  match k, s with
  | "", _ => true
  | String _ _, "" => false
  | String a k', String b s' => Ascii.eqb (lower a) (lower b) && prefix_ci k' s'
  end.

Fixpoint contains_ci (k s : string) : bool :=
  prefix_ci k s ||
  match s with
  | "" => false
  | String _ s' => contains_ci k s'
  end.

(** *** Rules *)

Record Rule : Type := mkRule {
  keywords : list string;
  category : LicenseCategory
}.

Definition rule_matches (text : string) (r : Rule) : bool :=
  existsb (fun k => contains_ci k text) (keywords r).

(** First matching rule wins. *)
Fixpoint first_match (table : list Rule) (text : string)
  : option LicenseCategory :=
  match table with
  | [] => None
  | r :: rest =>
      if rule_matches text r then Some (category r)
      else first_match rest text
  end.

(** The categories of every rule that matches, in table order. *)
Definition matching_categories (table : list Rule) (text : string)
  : list LicenseCategory :=
  map category (filter (fun r => rule_matches text r = true) table).

(** Modelled from the spec: how permissive a category is. The spec asks
    for "the most permissive matching category" without ranking the
    tags; they are ranked here by how few obligations each imposes on
    the consumer. *)
Definition permissiveness (c : LicenseCategory) : nat :=
  match c with
  | public_domain => 5
  | permissive => 4
  | weak_copyleft => 3
  | strong_copyleft => 2
  | proprietary => 1
  | unknown => 0
  end%nat.

Definition more_permissive (a b : LicenseCategory) : LicenseCategory :=
  if (permissiveness a <? permissiveness b)%nat then b else a.

Definition most_permissive (cs : list LicenseCategory) : LicenseCategory :=
  foldr more_permissive unknown cs.

(** A string offers a choice of licenses when it joins them by the
    word "or". *)
Definition is_dual (text : string) : bool := contains_ci " or " text.

(** Modelled from the spec: the classifier [licenseType] of
    [license_matrix], for a given rule table. Section 4.1: keyword
    matching is case-insensitive, the first matching rule wins, a
    dual-license string takes the most permissive matching category
    found, and no match gives [unknown]. *)
Definition classify_with (table : list Rule) (text : string)
  : LicenseCategory :=
  if is_dual text then most_permissive (matching_categories table text)
  else default unknown (first_match table text).

(** Modelled from the spec: the rule table of [license_matrix], as far
    as the spec names it: the abbreviations MIT, BSD-3-Clause,
    Apache-2.0 and GPL-3.0, with "GPL-3.0" before bare "GPL". *)
Definition rules : list Rule :=
  [ mkRule ["MIT"] permissive;
    mkRule ["BSD-3-Clause"] permissive;
    mkRule ["Apache-2.0"] permissive;
    mkRule ["GPL-3.0"] strong_copyleft;
    mkRule ["GPL"] strong_copyleft ].

Definition classify (text : string) : LicenseCategory :=
  classify_with rules text.

(** Modelled from the spec: the answer of [licenseType] as its caller
    receives it. Section 4.1 gives exactly one category for a string;
    [getdepsLicenses] subscripts the answer on line 64 and passes it
    whole on line 70, so it is that category in a one-element
    sequence. *)
Definition licenseType (text : string) : list LicenseCategory :=
  [classify text].

(** *** Compatibility table *)

Definition categories : list LicenseCategory :=
  [permissive; weak_copyleft; strong_copyleft; proprietary;
   public_domain; unknown].

(** [d[k]] on a dictionary kept as an association list. *)
Fixpoint getitem {V} (d : list (LicenseCategory * V)) (k : LicenseCategory)
  : result V :=
  match d with
  | [] => Raise KeyError
  | (k', v) :: rest => if decide (k' = k) then Ok v else getitem rest k
  end.

Section Matrix.

(** The cells the spec leaves open. *)
Variable cell : LicenseCategory -> LicenseCategory -> bool.

(** Modelled from the spec: one cell of the compatibility table of
    [license_matrix]. Sections 3, 4.2 and 8 fix the [unknown] row and
    column (never compatible), permissive with permissive, a
    strong-copyleft dependency under a strong-copyleft and under a
    permissive project; every other cell is [cell]. *)
Definition entry (project dep : LicenseCategory) : bool :=
  match project, dep with
  | unknown, _ => false
  | _, unknown => false
  | permissive, permissive => true
  | permissive, strong_copyleft => false
  | strong_copyleft, strong_copyleft => true
  | _, _ => cell project dep
  end.

(** Modelled from the spec: the table itself, a nested dictionary
    built once with a row for every category and a cell for every
    category in each row. *)
Definition CompatibilityMatrix
  : list (LicenseCategory * list (LicenseCategory * bool)) :=
  map (fun p => (p, map (fun d => (d, entry p d)) categories)) categories.

(** Modelled from the spec: the lookup
    [CompatibilityMatrix[projectCategory][depCategory]]. *)
Definition compatible (project dep : LicenseCategory) : result bool :=
  match getitem CompatibilityMatrix project with
  | Ok row => getitem row dep
  | Raise e => Raise e
  end.

End Matrix.

End LicenseMatrix.

(** ** Sample worlds

    Concrete collaborators, on which the program can be run. *)

Module Samples.

Definition nl : string := String "010" "".

Definition pkg (n l : string) : PackageInfo := mkPackageInfo n "1.0" l None None.

(** A package index that knows the licenses of [foo] and [bar]. *)
Definition metadata (req : option string) : PackageInfo :=
  match req with
  | Some n =>
      if decide (n = "foo") then pkg n "MIT"
      else if decide (n = "bar") then pkg n "GPL-3.0"
      else if decide (n = "both") then pkg n "GPL-3.0, MIT"
      else pkg n ""
  | None => pkg "" ""
  end.

Definition lookup_all (reqs : list (option string))
  : result (list PackageInfo) := Ok (map metadata reqs).

Definition lookup_down (reqs : list (option string))
  : result (list PackageInfo) := Raise (ExternalError "ModuleNotFoundError").

Definition single (text : string) : list LicenseCategory :=
  [LicenseMatrix.classify text].

Definition verdict (r : result bool) : bool :=
  match r with
  | Ok b => b
  | Raise _ => false
  end.

Definition compat (my : LicenseCategory) (dep : list LicenseCategory) : bool :=
  forallb (fun d => verdict (LicenseMatrix.compatible (fun _ _ => false) my d)) dep.

Definition render (tag : string) (deps : list PackageCompat) : string :=
  String.append tag (String.concat "," (map (fun d => name (package d)) deps)).

(** A world: [poetry] is the text [poetry show] prints when poetry is
    installed, [reqtxt] the text of requirements.txt when it can be
    read, [writable] whether files can be opened for writing. *)
Definition world (poetry reqtxt : option string) (writable : bool)
  (lookup : list (option string) -> result (list PackageInfo))
  (classifier : string -> list LicenseCategory) (args : Args) : Env :=
  {| popen argv :=
       match poetry with
       | Some shown =>
           if decide (argv = ["poetry"; "show"]) then (0, shown) else (0, "")
       | None => (127, "sh: 1: poetry: not found")
       end;
     open_ path mode :=
       if decide (mode = "r") then
         match reqtxt with
         | Some text =>
             if decide (path = "requirements.txt") then Ok (mkFile path text)
             else Raise (OSError path)
         | None => Raise (OSError path)
         end
       else if writable then Ok (mkFile path "") else Raise (OSError path);
     requirements_parse f :=
       Ok (map (fun l => mkRequirement (head (PyStr.split l)))
               (PyStr.splitlines (file_text f)));
     getMyPackageLicense := Ok "MIT";
     getPackages := lookup;
     licenseType := classifier;
     depCompatibleLice := compat;
     formatter_json := render "json:";
     formatter_markdown := render "markdown:";
     formatter_csv := render "csv:";
     formatter_ansi := render "ansi:";
     formatter_simple := render "simple:";
     parse_args := Ok args |}.

Definition shown : string :=
  String.concat nl ["foo 1.0 A"; "bar 2.0 B"; "baz 0.1 C"; ""].

Definition shown_gap : string :=
  String.concat nl ["foo 1.0 A"; ""; "bar 2.0 B"; ""].

Definition no_args : Args := mkArgs None None.

(** poetry installed, three dependencies *)
Definition poetryEnv : Env :=
  world (Some shown) None true lookup_all single no_args.

(** no poetry, a requirements.txt naming foo and bar twice *)
Definition requirementsEnv : Env :=
  world None (Some (String.concat nl ["foo"; "bar"; "foo"]))
    true lookup_all single no_args.


(** poetry prints an empty line between two packages *)
Definition gapEnv : Env :=
  world (Some shown_gap) None true lookup_all single no_args.

(** the package index cannot be reached *)
Definition offlineEnv : Env :=
  world (Some shown) None true lookup_down single no_args.

(** [--format xml] *)
Definition xmlEnv : Env :=
  world (Some shown) None true lookup_all single (mkArgs (Some "xml") None).

(** [--format xml --file /nonexistent/report.txt] *)
Definition xmlNoFileEnv : Env :=
  world (Some shown) None false lookup_all single
    (mkArgs (Some "xml") (Some "/nonexistent/report.txt")).

End Samples.

(** ** Further observations *)

(** [E] started with other command-line arguments. *)
Definition with_args (E : Env) (args : Args) : Env :=
  {| popen := popen E;
     open_ := open_ E;
     requirements_parse := requirements_parse E;
     getMyPackageLicense := getMyPackageLicense E;
     getPackages := getPackages E;
     licenseType := licenseType E;
     depCompatibleLice := depCompatibleLice E;
     formatter_json := formatter_json E;
     formatter_markdown := formatter_markdown E;
     formatter_csv := formatter_csv E;
     formatter_ansi := formatter_ansi E;
     formatter_simple := formatter_simple E;
     parse_args := Ok args |}.

(** The entries of [formatMap], as written on lines 86-87. *)
Definition format_entries (E : Env)
  : list (string * (list PackageCompat -> string)) :=
  [("json", formatter_json E); ("markdown", formatter_markdown E);
   ("csv", formatter_csv E); ("ansi", formatter_ansi E);
   ("simple", formatter_simple E)].

(** The formatter [cli] uses for the given arguments, if any. *)
Definition chosen_formatter (E : Env) (args : Args)
  : option (list PackageCompat -> string) :=
  match format args with
  | None => Some (formatter_simple E)
  | Some fmt => formatMap E !! fmt
  end.

(** What [getdepsLicenses] may do to the outside world: run one of the
    two poetry commands, warn, read requirements.txt. *)
Definition within_bounds (ev : event) : Prop :=
  match ev with
  | EExec argv => argv = probe_argv \/ argv = show_argv
  | EOpen path mode => path = "requirements.txt" /\ mode = "r"
  | EPrint _ _ => False
  | _ => True
  end.

(** A call of one of the collaborators of [packageinfo] and
    [license_matrix]. *)
Definition is_pipeline_call (ev : event) : bool :=
  match ev with
  | EGetMyPackageLicense | ELicenseType _ _ | EGetPackages _
  | EDepCompatibleLice _ _ => true
  | _ => false
  end.

Definition is_warning (ev : event) : bool :=
  match ev with
  | EWarn _ => true
  | _ => false
  end.

(** The argument of a call of [getPackages]. *)
Definition lookup_arg (ev : event) : option (list (option string)) :=
  match ev with
  | EGetPackages reqs => Some reqs
  | _ => None
  end.

(** No character of [s] is whitespace. *)
Fixpoint wordlike (s : string) : bool :=
  match s with
  | "" => true
  | String c s' => negb (PyStr.isspace c) && wordlike s'
  end.

(** [post] is empty or begins with whitespace. *)
Definition word_end (post : string) : Prop :=
  match post with
  | "" => True
  | String c _ => PyStr.isspace c = true
  end.

(** [w] is the first word of [line]: what stands between the leading
    whitespace and the next whitespace or the end. *)
Definition first_word (line w : string) : Prop :=
  exists pre post,
    line = pre +:+ w +:+ post /\ PyStr.blank pre = true /\
    wordlike w = true /\ w <> "" /\ word_end post.

(** The last character of a string. *)
Fixpoint last_char (s : string) : option ascii :=
  match s with
  | "" => None
  | String c "" => Some c
  | String _ s' => last_char s'
  end.

(** [s] ends in the middle of a line: it is not empty and its last
    character is no line terminator. *)
Definition ends_open (s : string) : bool :=
  match last_char s with
  | None => false
  | Some c => negb (Ascii.eqb c "013") && negb (PyStr.islinebreak c)
  end.

(** More sample worlds. *)
Module MoreSamples.

(** poetry installed; [--format markdown --file report.md] *)
Definition markdownFileEnv : Env :=
  with_args Samples.poetryEnv (mkArgs (Some "markdown") (Some "report.md")).

(** [poetry show] fails with status 1 and prints the same text *)
Definition showFailsEnv : Env :=
  {| popen argv :=
       if decide (argv = show_argv) then (1, Samples.shown) else (0, "");
     open_ := open_ Samples.poetryEnv;
     requirements_parse := requirements_parse Samples.poetryEnv;
     getMyPackageLicense := getMyPackageLicense Samples.poetryEnv;
     getPackages := getPackages Samples.poetryEnv;
     licenseType := licenseType Samples.poetryEnv;
     depCompatibleLice := depCompatibleLice Samples.poetryEnv;
     formatter_json := formatter_json Samples.poetryEnv;
     formatter_markdown := formatter_markdown Samples.poetryEnv;
     formatter_csv := formatter_csv Samples.poetryEnv;
     formatter_ansi := formatter_ansi Samples.poetryEnv;
     formatter_simple := formatter_simple Samples.poetryEnv;
     parse_args := parse_args Samples.poetryEnv |}.

(** [poetry show] prints its last line without a final newline *)
Definition noFinalNewlineEnv : Env :=
  Samples.world (Some (String.concat Samples.nl ["foo 1.0 A"; "bar 2.0 B"]))
    None true Samples.lookup_all Samples.single Samples.no_args.

(** the same output, with the final newline *)
Definition finalNewlineEnv : Env :=
  Samples.world
    (Some (String.concat Samples.nl ["foo 1.0 A"; "bar 2.0 B"] +:+ Samples.nl))
    None true Samples.lookup_all Samples.single Samples.no_args.

(** no poetry, and a requirements.txt the parser rejects *)
Definition unparsableEnv : Env :=
  {| popen := popen Samples.requirementsEnv;
     open_ := open_ Samples.requirementsEnv;
     requirements_parse := fun _ => Raise (ExternalError "ValueError");
     getMyPackageLicense := getMyPackageLicense Samples.requirementsEnv;
     getPackages := getPackages Samples.requirementsEnv;
     licenseType := licenseType Samples.requirementsEnv;
     depCompatibleLice := depCompatibleLice Samples.requirementsEnv;
     formatter_json := formatter_json Samples.requirementsEnv;
     formatter_markdown := formatter_markdown Samples.requirementsEnv;
     formatter_csv := formatter_csv Samples.requirementsEnv;
     formatter_ansi := formatter_ansi Samples.requirementsEnv;
     formatter_simple := formatter_simple Samples.requirementsEnv;
     parse_args := parse_args Samples.requirementsEnv |}.

(** the project's own license cannot be read *)
Definition noProjectLicenseEnv : Env :=
  {| popen := popen Samples.poetryEnv;
     open_ := open_ Samples.poetryEnv;
     requirements_parse := requirements_parse Samples.poetryEnv;
     getMyPackageLicense := Raise (ExternalError "FileNotFoundError");
     getPackages := getPackages Samples.poetryEnv;
     licenseType := licenseType Samples.poetryEnv;
     depCompatibleLice := depCompatibleLice Samples.poetryEnv;
     formatter_json := formatter_json Samples.poetryEnv;
     formatter_markdown := formatter_markdown Samples.poetryEnv;
     formatter_csv := formatter_csv Samples.poetryEnv;
     formatter_ansi := formatter_ansi Samples.poetryEnv;
     formatter_simple := formatter_simple Samples.poetryEnv;
     parse_args := parse_args Samples.poetryEnv |}.

End MoreSamples.

(** ** Running computations *)

Section Running.

Context {A B : Type}.
Implicit Types (m : M A) (k : A -> M B).

Lemma bind_ok m k a :
  outcome m = Ok a ->
  bind m k = (events m ++ events (k a), outcome (k a)).
Proof.
  destruct m as [evs r]; unfold bind; simpl; intros ->.
  now destruct (k a).
Qed.

Lemma bind_raise m k e :
  outcome m = Raise e -> bind m k = (events m, Raise e).
Proof. destruct m as [evs r]; unfold bind; simpl; now intros ->. Qed.

Lemma bind_ret (a : A) k : bind (ret a) k = k a.
Proof. unfold bind, ret. now destruct (k a). Qed.

Lemma bind_emit (ev : event) (k' : unit -> M B) :
  bind (emit ev) k' = (ev :: events (k' tt), outcome (k' tt)).
Proof. unfold bind, emit. now destruct (k' tt). Qed.

Lemma bind_lift_ok (a : A) k : bind (lift (Ok a)) k = k a.
Proof. apply bind_ret. Qed.

Lemma bind_lift_raise (e : exn) k : bind (lift (Raise e)) k = ([], Raise e).
Proof. reflexivity. Qed.

End Running.

Lemma bind_assoc {A B C} (m : M A) (f : A -> M B) (g : B -> M C) :
  bind (bind m f) g = bind m (fun a => bind (f a) g).
Proof.
  destruct m as [evs [a | e]]; unfold bind; [| reflexivity].
  destruct (f a) as [evs1 [b | e1]]; [| reflexivity].
  destruct (g b) as [evs2 r]. now rewrite app_assoc.
Qed.

Lemma events_pair {A} (evs : list event) (r : result A) :
  events (evs, r) = evs.
Proof. reflexivity. Qed.

Lemma outcome_pair {A} (evs : list event) (r : result A) :
  outcome (evs, r) = r.
Proof. reflexivity. Qed.

(** Normalises a computation built from [bind], [emit], [ret] and [lift]
    of a known result. *)
Ltac step :=
  repeat first
    [ rewrite bind_assoc
    | rewrite bind_ret
    | rewrite bind_emit
    | rewrite bind_lift_ok
    | rewrite bind_lift_raise
    | rewrite events_pair
    | rewrite outcome_pair ].

(** ** Strings *)

Module PyStrFacts.
Import PyStr.

Lemma snoc_nonempty cur c : snoc cur c <> "".
Proof. unfold snoc. destruct cur; discriminate. Qed.

Lemma flush_nil cur rest : flush cur rest = [] <-> cur = "" /\ rest = [].
Proof.
  destruct cur; simpl; split.
  - intros ->. now split.
  - now intros [_ ->].
  - discriminate.
  - intros [? _]. discriminate.
Qed.

Lemma split_from_nil s : forall cur,
  split_from cur s = [] <-> cur = "" /\ blank s = true.
Proof.
  induction s as [| c s IH]; intros cur; simpl.
  - rewrite flush_nil. intuition.
  - destruct (isspace c); simpl.
    + rewrite flush_nil, IH. intuition.
    + rewrite IH. split.
      * intros [H _]. now apply snoc_nonempty in H.
      * intros [_ H]. discriminate.
Qed.

(** [line.split()] is empty exactly for an empty or all-whitespace
    line. *)
Lemma split_nil_blank s : split s = [] <-> blank s = true.
Proof. unfold split. rewrite split_from_nil. intuition. Qed.

Lemma split_blank_false s :
  blank s = false -> exists p ps, split s = p :: ps.
Proof.
  intros Hb. destruct (split s) as [| p ps] eqn:Hs; [| eauto].
  apply split_nil_blank in Hs. congruence.
Qed.

End PyStrFacts.

(** ** The loops *)

Section Loops.

Variable E : Env.

Lemma requirements_loop_eq parsed : forall reqs,
  requirements_loop parsed reqs = reqs ++ map req_name parsed.
Proof.
  induction parsed as [| req rest IH]; intros reqs; simpl.
  - now rewrite app_nil_r.
  - rewrite IH, <- app_assoc. reflexivity.
Qed.

(** Every line has a first word: the loop collects them. *)
Lemma poetry_loop_ok lines : forall reqs,
  Forall (fun line => PyStr.blank line = false) lines ->
  poetry_loop lines reqs
  = ([], Ok (reqs ++ map (fun line => head (PyStr.split line)) lines)).
Proof.
  induction lines as [| line rest IH]; intros reqs Hall; simpl.
  - now rewrite app_nil_r.
  - inversion Hall as [| ? ? Hline Hrest]; subst.
    destruct (PyStrFacts.split_blank_false _ Hline) as (p & ps & ->).
    simpl. unfold index0. rewrite bind_ret, IH, <- app_assoc by assumption.
    reflexivity.
Qed.

(** Some line has no word: the loop stops there with IndexError. *)
Lemma poetry_loop_blank lines : forall reqs,
  Exists (fun line => PyStr.blank line = true) lines ->
  poetry_loop lines reqs = ([], Raise IndexError).
Proof.
  induction lines as [| line rest IH]; intros reqs Hex; simpl.
  - inversion Hex.
  - destruct (PyStr.split line) as [| p ps] eqn:Hs; [reflexivity |].
    simpl. unfold index0. rewrite bind_ret. apply IH.
    inversion Hex as [? ? Hline | ? ? Hrest]; subst; [| assumption].
    apply PyStrFacts.split_nil_blank in Hline. congruence.
Qed.

Lemma assemble_eq myLice packages : forall depsLicenses,
  assemble E myLice packages depsLicenses
  = (flat_map (iteration_calls E myLice) packages,
     Ok (depsLicenses ++ map (iteration_record E myLice) packages)).
Proof.
  induction packages as [| p rest IH]; intros acc; simpl.
  - now rewrite app_nil_r.
  - unfold call_licenseType, call_depCompatibleLice. step.
    rewrite IH. step. rewrite <- app_assoc. reflexivity.
Qed.

End Loops.

(** ** The enumerator and the assembler, case by case *)

Section Cases.

Variable E : Env.

Lemma split_probe : Shlex.split "poetry -h" = probe_argv.
Proof. reflexivity. Qed.

Lemma split_show : Shlex.split "poetry show" = show_argv.
Proof. reflexivity. Qed.

Lemma poetry_loop_events lines : forall reqs,
  events (poetry_loop lines reqs) = [].
Proof.
  induction lines as [| line rest IH]; intros reqs; simpl; [reflexivity |].
  destruct (PyStr.split line) as [| p ps]; [reflexivity |].
  unfold index0. rewrite bind_ret. apply IH.
Qed.

Lemma enumerate_poetry :
  fst (popen E probe_argv) = 0 ->
  enumerate E
  = ([EExec probe_argv; EExec show_argv],
     outcome (poetry_loop (PyStr.splitlines (snd (popen E show_argv))) [])).
Proof.
  intros Hprobe. unfold enumerate, _doSysExec.
  rewrite split_probe, split_show. step.
  destruct (decide (fst (popen E probe_argv) <> 0)) as [Hne | _];
    [contradiction |].
  step. rewrite poetry_loop_events. reflexivity.
Qed.

Lemma enumerate_fallback :
  fst (popen E probe_argv) <> 0 ->
  enumerate E
  = match open_ E "requirements.txt" "r" with
    | Raise e => (fallback_prefix, Raise e)
    | Ok f =>
        (fallback_prefix ++ [EParseRequirements (file_text f)],
         match requirements_parse E f with
         | Raise e => Raise e
         | Ok parsed => Ok (map req_name parsed)
         end)
    end.
Proof.
  intros Hprobe. unfold enumerate, _doSysExec.
  rewrite split_probe. step.
  destruct (decide (fst (popen E probe_argv) <> 0)) as [_ | Heq];
    [| contradiction].
  step.
  destruct (open_ E "requirements.txt" "r") as [f | e]; step;
    [| reflexivity].
  destruct (requirements_parse E f) as [parsed | e]; step;
    [| reflexivity].
  rewrite requirements_loop_eq. reflexivity.
Qed.

(** [getdepsLicenses] after the enumerator, in every case. *)
Lemma getdepsLicenses_cases :
  getdepsLicenses E
  = match outcome (enumerate E) with
    | Raise e => (events (enumerate E), Raise e)
    | Ok reqs =>
        match getMyPackageLicense E with
        | Raise e => (events (enumerate E) ++ [EGetMyPackageLicense], Raise e)
        | Ok myLiceTxt =>
            match licenseType E myLiceTxt with
            | [] =>
                (events (enumerate E)
                 ++ [EGetMyPackageLicense; ELicenseType ProjectSide myLiceTxt],
                 Raise IndexError)
            | myLice :: _ =>
                match getPackages E reqs with
                | Raise e =>
                    (events (enumerate E) ++ project_calls myLiceTxt reqs,
                     Raise e)
                | Ok packages =>
                    (events (enumerate E) ++ project_calls myLiceTxt reqs
                     ++ flat_map (iteration_calls E myLice) packages,
                     Ok (map (iteration_record E myLice) packages))
                end
            end
        end
    end.
Proof.
  unfold getdepsLicenses.
  destruct (outcome (enumerate E)) as [reqs | e] eqn:Henum.
  - rewrite (bind_ok _ _ _ Henum). unfold call_licenseType. step.
    destruct (getMyPackageLicense E) as [txt | e]; step; [| reflexivity].
    destruct (licenseType E txt) as [| myLice others]; unfold index0; step;
      [reflexivity |].
    destruct (getPackages E reqs) as [packages | e]; step; [| reflexivity].
    rewrite assemble_eq. reflexivity.
  - now rewrite (bind_raise _ _ _ Henum).
Qed.

End Cases.

(** A report is returned exactly when every stage before the assembling
    loop succeeded. *)
Lemma getdepsLicenses_ok_inv (E : Env) (out : list PackageCompat) :
  outcome (getdepsLicenses E) = Ok out ->
  exists reqs myLiceTxt myLice others packages,
    outcome (enumerate E) = Ok reqs /\
    getMyPackageLicense E = Ok myLiceTxt /\
    licenseType E myLiceTxt = myLice :: others /\
    getPackages E reqs = Ok packages /\
    out = map (iteration_record E myLice) packages /\
    events (getdepsLicenses E)
    = events (enumerate E) ++ project_calls myLiceTxt reqs
      ++ flat_map (iteration_calls E myLice) packages.
Proof.
  rewrite getdepsLicenses_cases.
  destruct (outcome (enumerate E)) as [reqs | e] eqn:Henum; [| discriminate].
  destruct (getMyPackageLicense E) as [txt | e] eqn:Hmy; [| discriminate].
  destruct (licenseType E txt) as [| myLice others] eqn:Hcls; [discriminate |].
  destruct (getPackages E reqs) as [packages | e] eqn:Hpkgs; [| discriminate].
  step. intros [= <-]. now exists reqs, txt, myLice, others, packages.
Qed.

Lemma getdepsLicenses_ok (E : Env) reqs myLiceTxt myLice others packages :
  outcome (enumerate E) = Ok reqs ->
  getMyPackageLicense E = Ok myLiceTxt ->
  licenseType E myLiceTxt = myLice :: others ->
  getPackages E reqs = Ok packages ->
  getdepsLicenses E
  = (events (enumerate E) ++ project_calls myLiceTxt reqs
     ++ flat_map (iteration_calls E myLice) packages,
     Ok (map (iteration_record E myLice) packages)).
Proof.
  intros Henum Hmy Hcls Hpkgs.
  now rewrite getdepsLicenses_cases, Henum, Hmy, Hcls, Hpkgs.
Qed.

Lemma map_package_records (E : Env) myLice packages :
  map package (map (iteration_record E myLice) packages) = packages.
Proof.
  induction packages as [| p rest IH]; simpl; [reflexivity |].
  now rewrite IH.
Qed.

(** The enumerator never calls the classifier or the compatibility
    check. *)
Lemma enumerate_events (E : Env) :
  List.filter is_project_classification (events (enumerate E)) = []
  /\ omap check_args (events (enumerate E)) = [].
Proof.
  destruct (decide (fst (popen E probe_argv) = 0)) as [Hz | Hnz].
  - rewrite (enumerate_poetry E Hz). now step.
  - rewrite (enumerate_fallback E Hnz).
    destruct (open_ E "requirements.txt" "r"); now step.
Qed.

Lemma iteration_calls_project (E : Env) myLice packages :
  List.filter is_project_classification
    (flat_map (iteration_calls E myLice) packages) = [].
Proof. induction packages as [| p rest IH]; simpl; [reflexivity | exact IH]. Qed.

Lemma iteration_calls_checks (E : Env) myLice packages :
  omap check_args (flat_map (iteration_calls E myLice) packages)
  = map (fun p => (myLice, licenseType E (license p))) packages.
Proof.
  induction packages as [| p rest IH]; simpl; [reflexivity |].
  f_equal. exact IH.
Qed.

(** ** The report assembler *)

(** C1: when the stages before the loop succeed and [getPackages] hands
    N dependency tuples to [getdepsLicenses], it returns exactly N
    records, the i-th built from the i-th tuple: nothing is dropped,
    merged or reordered. Conversely every report returned arises so. *)
Theorem getdepsLicenses_one_record_per_dependency (E : Env) :
  (forall reqs myLiceTxt myLice others packages,
     outcome (enumerate E) = Ok reqs ->
     getMyPackageLicense E = Ok myLiceTxt ->
     licenseType E myLiceTxt = myLice :: others ->
     getPackages E reqs = Ok packages ->
     exists out,
       outcome (getdepsLicenses E) = Ok out /\
       length out = length packages /\
       map package out = packages)
  /\
  (forall out,
     outcome (getdepsLicenses E) = Ok out ->
     exists reqs packages,
       outcome (enumerate E) = Ok reqs /\
       getPackages E reqs = Ok packages /\
       length out = length packages /\
       map package out = packages).
Proof.
  split.
  - intros reqs txt myLice others packages Henum Hmy Hcls Hpkgs.
    exists (map (iteration_record E myLice) packages).
    rewrite (getdepsLicenses_ok E _ _ _ _ _ Henum Hmy Hcls Hpkgs).
    step. split; [reflexivity |].
    split; [now rewrite length_map | apply map_package_records].
  - intros out Hout.
    destruct (getdepsLicenses_ok_inv E out Hout)
      as (reqs & txt & myLice & others & packages
          & Henum & _ & _ & Hpkgs & -> & _).
    exists reqs, packages. repeat split; try assumption.
    + now rewrite length_map.
    + apply map_package_records.
Qed.

Lemma getdepsLicenses_one_record_per_dependency_witness :
  (outcome (enumerate Samples.requirementsEnv)
   = Ok [Some "foo"; Some "bar"; Some "foo"]
   /\ getMyPackageLicense Samples.requirementsEnv = Ok "MIT"
   /\ licenseType Samples.requirementsEnv "MIT" = [permissive]
   /\ getPackages Samples.requirementsEnv [Some "foo"; Some "bar"; Some "foo"]
      = Ok (map Samples.metadata [Some "foo"; Some "bar"; Some "foo"]))
  /\ (exists out,
        outcome (getdepsLicenses Samples.requirementsEnv) = Ok out /\
        length out
        = length (map Samples.metadata [Some "foo"; Some "bar"; Some "foo"]) /\
        map package out
        = map Samples.metadata [Some "foo"; Some "bar"; Some "foo"])
  /\ (exists reqs packages,
        outcome (enumerate Samples.requirementsEnv) = Ok reqs /\
        getPackages Samples.requirementsEnv reqs = Ok packages /\
        length (map (iteration_record Samples.requirementsEnv permissive)
                  (map Samples.metadata [Some "foo"; Some "bar"; Some "foo"]))
        = length packages /\
        map package
          (map (iteration_record Samples.requirementsEnv permissive)
             (map Samples.metadata [Some "foo"; Some "bar"; Some "foo"]))
        = packages).
Proof.
  split; [repeat split |].
  split.
  - apply (proj1 (getdepsLicenses_one_record_per_dependency
                    Samples.requirementsEnv)
             [Some "foo"; Some "bar"; Some "foo"] "MIT" permissive []
             (map Samples.metadata [Some "foo"; Some "bar"; Some "foo"])
             eq_refl eq_refl eq_refl eq_refl).
  - apply (proj2 (getdepsLicenses_one_record_per_dependency
                    Samples.requirementsEnv)).
    reflexivity.
Defined.

(** C2: in every report [getdepsLicenses] returns, each record's
    [license_compat] is what [depCompatibleLice] answers for the
    project's category and the classification of that record's own
    license string, both obtained by calls made during this run. *)
Theorem license_compat_is_matrix_verdict (E : Env) (out : list PackageCompat) :
  outcome (getdepsLicenses E) = Ok out ->
  exists myLiceTxt myLice others,
    getMyPackageLicense E = Ok myLiceTxt /\
    licenseType E myLiceTxt = myLice :: others /\
    ELicenseType ProjectSide myLiceTxt ∈ events (getdepsLicenses E) /\
    Forall (fun r =>
      license_compat r
      = depCompatibleLice E myLice (licenseType E (license (package r)))
      /\ ELicenseType DependencySide (license (package r))
           ∈ events (getdepsLicenses E)
      /\ EDepCompatibleLice myLice (licenseType E (license (package r)))
           ∈ events (getdepsLicenses E)) out.
Proof.
  intros Hout.
  destruct (getdepsLicenses_ok_inv E out Hout)
    as (reqs & txt & myLice & others & packages
        & _ & Hmy & Hcls & _ & -> & Hev).
  exists txt, myLice, others. repeat split; try assumption.
  - rewrite Hev. unfold project_calls. set_solver.
  - rewrite Hev. clear Hev Hout.
    apply Forall_forall. intros r Hr.
    apply list_elem_of_fmap in Hr as (p & -> & Hp).
    assert (Hcalls : forall ev, ev ∈ iteration_calls E myLice p ->
              ev ∈ events (enumerate E) ++ project_calls txt reqs
                   ++ flat_map (iteration_calls E myLice) packages).
    { intros ev Hin. rewrite !elem_of_app. right; right.
      apply list_elem_of_In, in_flat_map.
      exists p. split; now apply list_elem_of_In. }
    split; [reflexivity |].
    split; apply Hcalls; unfold iteration_calls; cbn [package iteration_record];
      set_solver.
Qed.

Lemma license_compat_is_matrix_verdict_witness :
  outcome (getdepsLicenses Samples.poetryEnv)
  = Ok (map (iteration_record Samples.poetryEnv permissive)
            (map Samples.metadata [Some "foo"; Some "bar"; Some "baz"]))
  /\ exists myLiceTxt myLice others,
    getMyPackageLicense Samples.poetryEnv = Ok myLiceTxt /\
    licenseType Samples.poetryEnv myLiceTxt = myLice :: others /\
    ELicenseType ProjectSide myLiceTxt
      ∈ events (getdepsLicenses Samples.poetryEnv) /\
    Forall (fun r =>
      license_compat r
      = depCompatibleLice Samples.poetryEnv myLice
          (licenseType Samples.poetryEnv (license (package r)))
      /\ ELicenseType DependencySide (license (package r))
           ∈ events (getdepsLicenses Samples.poetryEnv)
      /\ EDepCompatibleLice myLice
           (licenseType Samples.poetryEnv (license (package r)))
           ∈ events (getdepsLicenses Samples.poetryEnv))
      (map (iteration_record Samples.poetryEnv permissive)
           (map Samples.metadata [Some "foo"; Some "bar"; Some "baz"])).
Proof.
  split; [reflexivity |].
  apply (license_compat_is_matrix_verdict Samples.poetryEnv).
  reflexivity.
Defined.

(** C3: a run of [getdepsLicenses] calls the classifier on the project's
    license at most once, and a run that returns a report calls it
    exactly once, on the text [getMyPackageLicense] gave; the first
    category of that one answer is the project argument of every
    compatibility check of the run, and there is one check per record. *)
Theorem project_license_classified_once (E : Env) :
  (length (List.filter is_project_classification
             (events (getdepsLicenses E))) <= 1)%nat
  /\
  (forall out,
     outcome (getdepsLicenses E) = Ok out ->
     exists myLiceTxt myLice others,
       getMyPackageLicense E = Ok myLiceTxt /\
       licenseType E myLiceTxt = myLice :: others /\
       List.filter is_project_classification (events (getdepsLicenses E))
       = [ELicenseType ProjectSide myLiceTxt] /\
       fst <$> omap check_args (events (getdepsLicenses E))
       = replicate (length out) myLice).
Proof.
  destruct (enumerate_events E) as [Hnone _].
  split.
  - rewrite getdepsLicenses_cases.
    destruct (outcome (enumerate E)) as [reqs | e]; step;
      [| rewrite Hnone; simpl; lia].
    destruct (getMyPackageLicense E) as [txt | e]; step;
      [| rewrite List.filter_app, Hnone; simpl; lia].
    destruct (licenseType E txt) as [| myLice others]; step;
      [rewrite List.filter_app, Hnone; simpl; lia |].
    destruct (getPackages E reqs) as [packages | e]; step;
      rewrite ?List.filter_app, Hnone; simpl;
      rewrite ?iteration_calls_project; simpl; lia.
  - intros out Hout.
    destruct (getdepsLicenses_ok_inv E out Hout)
      as (reqs & txt & myLice & others & packages
          & _ & Hmy & Hcls & _ & -> & Hev).
    exists txt, myLice, others. repeat split; try assumption.
    + rewrite Hev, !List.filter_app, Hnone, iteration_calls_project.
      reflexivity.
    + rewrite Hev, !omap_app, (proj2 (enumerate_events E)),
        iteration_calls_checks.
      simpl. rewrite length_map. clear.
      induction packages as [| p rest IH]; simpl; [reflexivity |].
      now rewrite <- IH.
Qed.

Lemma project_license_classified_once_witness :
  outcome (getdepsLicenses Samples.poetryEnv)
  = Ok (map (iteration_record Samples.poetryEnv permissive)
            (map Samples.metadata [Some "foo"; Some "bar"; Some "baz"]))
  /\ exists myLiceTxt myLice others,
       getMyPackageLicense Samples.poetryEnv = Ok myLiceTxt /\
       licenseType Samples.poetryEnv myLiceTxt = myLice :: others /\
       List.filter is_project_classification
         (events (getdepsLicenses Samples.poetryEnv))
       = [ELicenseType ProjectSide myLiceTxt] /\
       fst <$> omap check_args (events (getdepsLicenses Samples.poetryEnv))
       = replicate
           (length (map (iteration_record Samples.poetryEnv permissive)
                      (map Samples.metadata
                         [Some "foo"; Some "bar"; Some "baz"])))
           myLice.
Proof.
  split; [reflexivity |].
  apply (proj2 (project_license_classified_once Samples.poetryEnv)).
  reflexivity.
Defined.




(** C7, as stated, fails: when the package index cannot answer,
    [getPackages] raises, and the run of [getdepsLicenses] ends with that
    exception: there is no report, so no record for any dependency. *)
Lemma reports_on_counterexample :
  outcome (enumerate Samples.offlineEnv)
  = Ok [Some "foo"; Some "bar"; Some "baz"]
  /\ getPackages Samples.offlineEnv [Some "foo"; Some "bar"; Some "baz"]
     = Raise (ExternalError "ModuleNotFoundError")
  /\ outcome (getdepsLicenses Samples.offlineEnv)
     = Raise (ExternalError "ModuleNotFoundError")
  /\ forall n, ~ reports_on Samples.offlineEnv n.
Proof.
  repeat split.
  intros n (out & r & Hout & _). vm_compute in Hout. discriminate.
Qed.

(** C7, amended: [getdepsLicenses] handles no exception. It fetches the
    metadata of all dependencies by one call of [getPackages] before it
    builds any record; if that call raises, the run stops there with
    the same exception and no dependency is classified or checked. If
    the call returns, every tuple it returned gets its record, whatever
    its license string. *)
Theorem lookup_failure_aborts_report (E : Env) reqs myLiceTxt myLice others :
  outcome (enumerate E) = Ok reqs ->
  getMyPackageLicense E = Ok myLiceTxt ->
  licenseType E myLiceTxt = myLice :: others ->
  (forall e,
     getPackages E reqs = Raise e ->
     getdepsLicenses E
     = (events (enumerate E) ++ project_calls myLiceTxt reqs, Raise e))
  /\
  (forall packages,
     getPackages E reqs = Ok packages ->
     outcome (getdepsLicenses E)
     = Ok (map (iteration_record E myLice) packages)).
Proof.
  intros Henum Hmy Hcls. split.
  - intros e Hpkgs. now rewrite getdepsLicenses_cases, Henum, Hmy, Hcls, Hpkgs.
  - intros packages Hpkgs.
    now rewrite (getdepsLicenses_ok E _ _ _ _ _ Henum Hmy Hcls Hpkgs).
Qed.

Lemma lookup_failure_aborts_report_witness :
  (outcome (enumerate Samples.offlineEnv)
   = Ok [Some "foo"; Some "bar"; Some "baz"]
   /\ getMyPackageLicense Samples.offlineEnv = Ok "MIT"
   /\ licenseType Samples.offlineEnv "MIT" = [permissive]
   /\ getPackages Samples.offlineEnv [Some "foo"; Some "bar"; Some "baz"]
      = Raise (ExternalError "ModuleNotFoundError")
   /\ outcome (enumerate Samples.poetryEnv)
      = Ok [Some "foo"; Some "bar"; Some "baz"]
   /\ getMyPackageLicense Samples.poetryEnv = Ok "MIT"
   /\ licenseType Samples.poetryEnv "MIT" = [permissive]
   /\ getPackages Samples.poetryEnv [Some "foo"; Some "bar"; Some "baz"]
      = Ok (map Samples.metadata [Some "foo"; Some "bar"; Some "baz"]))
  /\ getdepsLicenses Samples.offlineEnv
     = (events (enumerate Samples.offlineEnv)
        ++ project_calls "MIT" [Some "foo"; Some "bar"; Some "baz"],
        Raise (ExternalError "ModuleNotFoundError"))
  /\ outcome (getdepsLicenses Samples.poetryEnv)
     = Ok (map (iteration_record Samples.poetryEnv permissive)
               (map Samples.metadata [Some "foo"; Some "bar"; Some "baz"])).
Proof.
  split; [repeat split |].
  split.
  - apply (proj1 (lookup_failure_aborts_report Samples.offlineEnv
                    [Some "foo"; Some "bar"; Some "baz"] "MIT" permissive []
                    eq_refl eq_refl eq_refl)).
    reflexivity.
  - apply (proj2 (lookup_failure_aborts_report Samples.poetryEnv
                    [Some "foo"; Some "bar"; Some "baz"] "MIT" permissive []
                    eq_refl eq_refl eq_refl)).
    reflexivity.
Defined.

(** ** The enumerator *)

Lemma cli_after_target (E : Env) args to :
  parse_args E = Ok args ->
  outcome (open_target E args) = Ok to ->
  cli E
  = (events (open_target E args) ++
       events (match format args with
               | None =>
                   let* deps := getdepsLicenses E in
                   print (formatter_simple E deps) to
               | Some fmt =>
                   match formatMap E !! fmt with
                   | Some render =>
                       let* deps := getdepsLicenses E in
                       print (render deps) to
                   | None => print FORMAT_HELP Stdout ;; sysexit 1
                   end
               end),
     outcome (match format args with
              | None =>
                  let* deps := getdepsLicenses E in
                  print (formatter_simple E deps) to
              | Some fmt =>
                  match formatMap E !! fmt with
                  | Some render =>
                      let* deps := getdepsLicenses E in
                      print (render deps) to
                  | None => print FORMAT_HELP Stdout ;; sysexit 1
                  end
              end)).
Proof.
  intros Hargs Hto. unfold cli. rewrite Hargs, bind_lift_ok.
  now rewrite (bind_ok _ _ _ Hto).
Qed.

(** A failure of [getdepsLicenses] leaves [cli] before anything is
    printed. *)
Lemma cli_report_fails (E : Env) args to render e :
  parse_args E = Ok args ->
  outcome (open_target E args) = Ok to ->
  match format args with
  | None => True
  | Some fmt => formatMap E !! fmt = Some render
  end ->
  outcome (getdepsLicenses E) = Raise e ->
  cli E = (events (open_target E args) ++ events (getdepsLicenses E), Raise e).
Proof.
  intros Hargs Hto Hfmt Hfail.
  rewrite (cli_after_target E args to Hargs Hto).
  destruct (format args) as [fmt |]; [rewrite Hfmt |];
    now rewrite (bind_raise _ _ _ Hfail).
Qed.

Lemma open_target_events (E : Env) args :
  List.filter is_print (events (open_target E args)) = [].
Proof.
  unfold open_target. destruct (file args) as [path |]; [| reflexivity].
  step. now destruct (open_ E path "w"); step.
Qed.



(** C9: with poetry installed, the requirement names are the first
    words of the lines of [poetry show], one per line, provided every
    line has a word. A line that is empty or all whitespace has none:
    [parts[0]] raises IndexError, which ends the enumeration and
    [getdepsLicenses] with it; the line is not skipped. *)
Theorem poetry_enumeration_first_token (E : Env) :
  fst (popen E probe_argv) = 0 ->
  (Forall (fun line => PyStr.blank line = false)
          (PyStr.splitlines (snd (popen E show_argv))) ->
   outcome (enumerate E)
   = Ok (map (fun line => head (PyStr.split line))
             (PyStr.splitlines (snd (popen E show_argv)))))
  /\
  (Exists (fun line => PyStr.blank line = true)
          (PyStr.splitlines (snd (popen E show_argv))) ->
   outcome (enumerate E) = Raise IndexError /\
   getdepsLicenses E = ([EExec probe_argv; EExec show_argv], Raise IndexError)).
Proof.
  intros Hz. rewrite getdepsLicenses_cases, (enumerate_poetry E Hz). step.
  split.
  - intros Hall. now rewrite poetry_loop_ok.
  - intros Hex. now rewrite poetry_loop_blank.
Qed.

Lemma poetry_enumeration_first_token_witness :
  (fst (popen Samples.gapEnv probe_argv) = 0
   /\ PyStr.splitlines (snd (popen Samples.gapEnv show_argv))
      = ["foo 1.0 A"; ""; "bar 2.0 B"]
   /\ Exists (fun line => PyStr.blank line = true)
        (PyStr.splitlines (snd (popen Samples.gapEnv show_argv))))
  /\ (outcome (enumerate Samples.gapEnv) = Raise IndexError /\
      getdepsLicenses Samples.gapEnv
      = ([EExec probe_argv; EExec show_argv], Raise IndexError))
  /\ (fst (popen Samples.poetryEnv probe_argv) = 0
      /\ outcome (enumerate Samples.poetryEnv)
         = Ok [Some "foo"; Some "bar"; Some "baz"]).
Proof.
  assert (Hgap : Exists (fun line => PyStr.blank line = true)
            (PyStr.splitlines (snd (popen Samples.gapEnv show_argv)))).
  { apply Exists_cons_tl, Exists_cons_hd. reflexivity. }
  split; [repeat split; exact Hgap |].
  split.
  - apply (proj2 (poetry_enumeration_first_token Samples.gapEnv eq_refl)).
    exact Hgap.
  - split; [reflexivity |].
    apply (proj1 (poetry_enumeration_first_token Samples.poetryEnv eq_refl)).
    repeat constructor.
Defined.

(** ** The command line *)

(** [fmt in formatMap] holds exactly for the five names. *)
Lemma formatMap_lookup_None (E : Env) (fmt : string) :
  formatMap E !! fmt = None <-> fmt ∉ format_names.
Proof.
  unfold formatMap, format_names.
  rewrite !lookup_insert_None, lookup_singleton_None.
  rewrite !not_elem_of_cons. pose proof (not_elem_of_nil fmt).
  intuition congruence.
Qed.

(** C10, as stated, fails: with [--format xml] and a [--file] that
    cannot be opened, [cli] ends with the exception of [open] at line 83,
    before the format is looked at; the help text is not printed and
    [sys.exit(1)] is not reached. *)
Lemma rejects_format_counterexample :
  parse_args Samples.xmlNoFileEnv
  = Ok (mkArgs (Some "xml") (Some "/nonexistent/report.txt"))
  /\ ("xml" ∉ format_names)
  /\ cli Samples.xmlNoFileEnv
     = ([EOpen "/nonexistent/report.txt" "w"],
        Raise (OSError "/nonexistent/report.txt"))
  /\ ~ rejects_format Samples.xmlNoFileEnv.
Proof.
  split; [reflexivity |].
  split.
  { unfold format_names. rewrite !not_elem_of_cons.
    repeat split; try discriminate. apply not_elem_of_nil. }
  split; [reflexivity |].
  intros [_ Hexit]. vm_compute in Hexit. discriminate.
Qed.

(** C10, amended: [cli] opens the output stream first. If that succeeds
    (no [--file], or the file opens for writing), then for every
    [--format] value outside simple, ansi, json, markdown and csv it
    prints the help text to standard output and exits with status 1,
    without running [getdepsLicenses]; and when [--format] is omitted it
    prints what the simple formatter makes of the report to the stream.
    If opening the file raises, [cli] ends with that exception whatever
    the format. *)
Theorem cli_rejects_unknown_format (E : Env) (args : Args) :
  parse_args E = Ok args ->
  (forall to fmt,
     outcome (open_target E args) = Ok to ->
     format args = Some fmt ->
     fmt ∉ format_names ->
     cli E = (events (open_target E args) ++ [EPrint Stdout FORMAT_HELP],
              Raise (SystemExit 1)))
  /\
  (forall to out,
     outcome (open_target E args) = Ok to ->
     format args = None ->
     outcome (getdepsLicenses E) = Ok out ->
     cli E = (events (open_target E args) ++ events (getdepsLicenses E)
              ++ [EPrint to (formatter_simple E out)],
              Ok tt))
  /\
  (forall e,
     outcome (open_target E args) = Raise e ->
     cli E = (events (open_target E args), Raise e)).
Proof.
  intros Hargs. split; [| split].
  - intros to fmt Hto Hfmt Hout.
    rewrite (cli_after_target E args to Hargs Hto), Hfmt.
    apply (formatMap_lookup_None E) in Hout. rewrite Hout.
    unfold print, sysexit. now step.
  - intros to out Hto Hfmt Hout.
    rewrite (cli_after_target E args to Hargs Hto), Hfmt.
    rewrite (bind_ok _ _ _ Hout). unfold print. now step.
  - intros e He. unfold cli. rewrite Hargs, bind_lift_ok.
    now rewrite (bind_raise _ _ _ He).
Qed.

Lemma cli_rejects_unknown_format_witness :
  (parse_args Samples.xmlEnv = Ok (mkArgs (Some "xml") None)
   /\ outcome (open_target Samples.xmlEnv (mkArgs (Some "xml") None))
      = Ok Stdout
   /\ ("xml" ∉ format_names)
   /\ parse_args Samples.poetryEnv = Ok Samples.no_args
   /\ outcome (open_target Samples.poetryEnv Samples.no_args) = Ok Stdout
   /\ outcome (getdepsLicenses Samples.poetryEnv)
      = Ok (map (iteration_record Samples.poetryEnv permissive)
                (map Samples.metadata [Some "foo"; Some "bar"; Some "baz"]))
   /\ parse_args Samples.xmlNoFileEnv
      = Ok (mkArgs (Some "xml") (Some "/nonexistent/report.txt"))
   /\ outcome (open_target Samples.xmlNoFileEnv
                 (mkArgs (Some "xml") (Some "/nonexistent/report.txt")))
      = Raise (OSError "/nonexistent/report.txt"))
  /\ cli Samples.xmlEnv
     = (events (open_target Samples.xmlEnv (mkArgs (Some "xml") None))
        ++ [EPrint Stdout FORMAT_HELP],
        Raise (SystemExit 1))
  /\ cli Samples.poetryEnv
     = (events (open_target Samples.poetryEnv Samples.no_args)
        ++ events (getdepsLicenses Samples.poetryEnv)
        ++ [EPrint Stdout "simple:foo,bar,baz"],
        Ok tt)
  /\ cli Samples.xmlNoFileEnv
     = (events (open_target Samples.xmlNoFileEnv
                  (mkArgs (Some "xml") (Some "/nonexistent/report.txt"))),
        Raise (OSError "/nonexistent/report.txt")).
Proof.
  assert (Hxml : "xml" ∉ format_names).
  { apply (formatMap_lookup_None Samples.xmlEnv). reflexivity. }
  split; [repeat split; exact Hxml |].
  split; [| split].
  - apply (proj1 (cli_rejects_unknown_format Samples.xmlEnv
                    (mkArgs (Some "xml") None) eq_refl)
             Stdout "xml" eq_refl eq_refl Hxml).
  - apply (proj1 (proj2 (cli_rejects_unknown_format Samples.poetryEnv
                           Samples.no_args eq_refl))
             Stdout
             (map (iteration_record Samples.poetryEnv permissive)
                (map Samples.metadata [Some "foo"; Some "bar"; Some "baz"]))
             eq_refl eq_refl eq_refl).
  - apply (proj2 (proj2 (cli_rejects_unknown_format Samples.xmlNoFileEnv
                           (mkArgs (Some "xml")
                              (Some "/nonexistent/report.txt")) eq_refl))
             (OSError "/nonexistent/report.txt") eq_refl).
Defined.

(** ** The specified classifier and compatibility table *)

Module LicenseMatrixFacts.
Import LicenseMatrix.





End LicenseMatrixFacts.

(** C5: in the specified table, for any content of the cells the
    specification leaves open, looking up any category against
    [unknown], on either side, succeeds and gives [false]. *)
Theorem unknown_never_compatible
  (cell : LicenseCategory -> LicenseCategory -> bool) (c : LicenseCategory) :
  LicenseMatrix.compatible cell c unknown = Ok false
  /\ LicenseMatrix.compatible cell unknown c = Ok false.
Proof. destruct c; split; reflexivity. Qed.



(** ** More on [getdepsLicenses] *)

Lemma enumerate_events_shape (E : Env) :
  (fst (popen E probe_argv) = 0 /\
   events (enumerate E) = [EExec probe_argv; EExec show_argv])
  \/ (fst (popen E probe_argv) <> 0 /\
      (events (enumerate E) = fallback_prefix \/
       exists text,
         events (enumerate E) = fallback_prefix ++ [EParseRequirements text])).
Proof.
  destruct (decide (fst (popen E probe_argv) = 0)) as [Hz | Hnz].
  - left. split; [exact Hz |]. now rewrite (enumerate_poetry E Hz).
  - right. split; [exact Hnz |]. rewrite (enumerate_fallback E Hnz).
    destruct (open_ E "requirements.txt" "r") as [f | e]; step;
      [right; now exists (file_text f) | now left].
Qed.

(** After the enumerator a run only calls collaborators. *)
Lemma getdepsLicenses_tail (E : Env) :
  exists tail,
    events (getdepsLicenses E) = events (enumerate E) ++ tail /\
    Forall (fun ev => is_pipeline_call ev = true) tail.
Proof.
  rewrite getdepsLicenses_cases.
  destruct (outcome (enumerate E)) as [reqs | e]; step;
    [| exists []; split; [now rewrite app_nil_r | constructor]].
  destruct (getMyPackageLicense E) as [txt | e]; step;
    [| eexists; split; [reflexivity | repeat constructor]].
  destruct (licenseType E txt) as [| myLice others]; step;
    [eexists; split; [reflexivity | repeat constructor] |].
  destruct (getPackages E reqs) as [packages | e]; step;
    (eexists; split; [reflexivity |]); [| repeat constructor].
  apply Forall_app. split; [repeat constructor |].
  induction packages as [| p rest IH]; simpl; repeat constructor; exact IH.
Qed.

Lemma filter_pipeline_calls (f : event -> bool) (tail : list event) :
  (forall ev, is_pipeline_call ev = true -> f ev = false) ->
  Forall (fun ev => is_pipeline_call ev = true) tail ->
  List.filter f tail = [].
Proof.
  intros Hf. induction 1 as [| ev rest Hev _ IH]; simpl; [reflexivity |].
  now rewrite (Hf ev Hev).
Qed.

(** X1: whatever the collaborators answer, a run of [getdepsLicenses]
    executes no command but [poetry -h] and [poetry show], opens no file
    but requirements.txt for reading, and prints nothing. *)
Theorem getdepsLicenses_within_bounds (E : Env) :
  Forall within_bounds (events (getdepsLicenses E)).
Proof.
  destruct (getdepsLicenses_tail E) as (tail & -> & Htail).
  apply Forall_app. split.
  - destruct (enumerate_events_shape E)
      as [[_ ->] | [_ [-> | [text ->]]]];
      unfold fallback_prefix; cbn [app];
      repeat apply Forall_cons_2; try apply Forall_nil_2; simpl; auto.
  - eapply Forall_impl; [exact Htail |].
    intros [] Hev; simpl in *; try exact I; discriminate Hev.
Qed.

(** X2: a run of [getdepsLicenses] warns exactly when the poetry probe
    fails, and then once, with the message of line 49. *)
Theorem warning_iff_probe_fails (E : Env) :
  List.filter is_warning (events (getdepsLicenses E))
  = if decide (fst (popen E probe_argv) = 0) then []
    else [EWarn "poetry is not on the system path"].
Proof.
  destruct (getdepsLicenses_tail E) as (tail & -> & Htail).
  rewrite List.filter_app, (filter_pipeline_calls is_warning tail), app_nil_r;
    [| intros [] Hev; simpl in *; try reflexivity; discriminate Hev
     | exact Htail].
  destruct (enumerate_events_shape E)
    as [[Hz ->] | [Hnz [-> | [text ->]]]];
    destruct (decide (fst (popen E probe_argv) = 0)); try contradiction;
    reflexivity.
Qed.

Lemma lookup_calls (E : Env) :
  omap lookup_arg (events (getdepsLicenses E))
  = match outcome (enumerate E) with
    | Ok reqs =>
        match getMyPackageLicense E with
        | Ok myLiceTxt =>
            match licenseType E myLiceTxt with
            | [] => []
            | _ :: _ => [reqs]
            end
        | Raise _ => []
        end
    | Raise _ => []
    end.
Proof.
  assert (Henum : omap lookup_arg (events (enumerate E)) = []).
  { destruct (enumerate_events_shape E)
      as [[_ ->] | [_ [-> | [text ->]]]]; reflexivity. }
  assert (Hloop : forall myLice packages,
            omap lookup_arg (flat_map (iteration_calls E myLice) packages)
            = []).
  { intros myLice packages.
    induction packages as [| p rest IH]; simpl; [reflexivity | exact IH]. }
  rewrite getdepsLicenses_cases.
  destruct (outcome (enumerate E)) as [reqs | e]; step; [| exact Henum].
  destruct (getMyPackageLicense E) as [txt | e]; step;
    [| now rewrite omap_app, Henum].
  destruct (licenseType E txt) as [| myLice others]; step;
    [now rewrite omap_app, Henum |].
  destruct (getPackages E reqs) as [packages | e]; step;
    rewrite !omap_app, Henum, ?Hloop; reflexivity.
Qed.

(** X3: [getPackages] is called at most once in a run, and only after
    the enumerator returned, the project's license was read and its
    classification was not empty; the argument of the call is the
    enumerator's list. So a project whose license cannot be read or
    classified causes no metadata lookup. *)
Theorem lookup_only_after_project_classified (E : Env) :
  (length (omap lookup_arg (events (getdepsLicenses E))) <= 1)%nat
  /\
  (forall reqs,
     EGetPackages reqs ∈ events (getdepsLicenses E) ->
     outcome (enumerate E) = Ok reqs /\
     exists myLiceTxt myLice others,
       getMyPackageLicense E = Ok myLiceTxt /\
       licenseType E myLiceTxt = myLice :: others).
Proof.
  split.
  - rewrite lookup_calls.
    destruct (outcome (enumerate E)); [| simpl; lia].
    destruct (getMyPackageLicense E) as [txt |]; [| simpl; lia].
    destruct (licenseType E txt); simpl; lia.
  - intros reqs Hin.
    assert (Harg : reqs ∈ omap lookup_arg (events (getdepsLicenses E))).
    { apply list_elem_of_omap. exists (EGetPackages reqs). now split. }
    rewrite lookup_calls in Harg.
    destruct (outcome (enumerate E)) as [reqs' | e];
      [| now apply elem_of_nil in Harg].
    destruct (getMyPackageLicense E) as [txt | e];
      [| now apply elem_of_nil in Harg].
    destruct (licenseType E txt) as [| myLice others] eqn:Hcls;
      [now apply elem_of_nil in Harg |].
    apply list_elem_of_singleton in Harg as ->.
    split; [reflexivity |]. now exists txt, myLice, others.
Qed.

Lemma lookup_only_after_project_classified_witness :
  EGetPackages [Some "foo"; Some "bar"; Some "baz"]
    ∈ events (getdepsLicenses Samples.poetryEnv)
  /\ (outcome (enumerate Samples.poetryEnv)
      = Ok [Some "foo"; Some "bar"; Some "baz"] /\
      exists myLiceTxt myLice others,
        getMyPackageLicense Samples.poetryEnv = Ok myLiceTxt /\
        licenseType Samples.poetryEnv myLiceTxt = myLice :: others).
Proof.
  assert (Hin : EGetPackages [Some "foo"; Some "bar"; Some "baz"]
                  ∈ events (getdepsLicenses Samples.poetryEnv)).
  { vm_compute.
    repeat first [apply list_elem_of_here | apply list_elem_of_further]. }
  split; [exact Hin |].
  exact (proj2 (lookup_only_after_project_classified Samples.poetryEnv)
           _ Hin).
Defined.

Lemma poetry_loop_outcome (lines : list string) :
  (Forall (fun line => PyStr.blank line = false) lines /\
   outcome (poetry_loop lines [])
   = Ok (map (fun line => head (PyStr.split line)) lines))
  \/ (Exists (fun line => PyStr.blank line = true) lines /\
      outcome (poetry_loop lines []) = Raise IndexError).
Proof.
  destruct (decide (Forall (fun line => PyStr.blank line = false) lines))
    as [Hall | Hnot].
  - left. split; [exact Hall |]. now rewrite poetry_loop_ok.
  - right. apply not_Forall_Exists in Hnot; [| intros x; apply _].
    assert (Hex : Exists (fun line => PyStr.blank line = true) lines).
    { eapply Exists_impl; [exact Hnot |]. simpl. intros line Hl.
      now destruct (PyStr.blank line). }
    split; [exact Hex |]. now rewrite poetry_loop_blank.
Qed.

(** X4: two failures before any license is classified. When poetry is
    absent and [requirements.parse] rejects requirements.txt, and when
    [getMyPackageLicense] raises after the enumerator returned, the run
    of [getdepsLicenses] ends there with that same exception: the
    classifier is not called and no metadata is looked up. *)
Theorem early_failures_stop_the_run (E : Env) :
  (forall f e,
     fst (popen E probe_argv) <> 0 ->
     open_ E "requirements.txt" "r" = Ok f ->
     requirements_parse E f = Raise e ->
     getdepsLicenses E
     = (fallback_prefix ++ [EParseRequirements (file_text f)], Raise e))
  /\
  (forall reqs e,
     outcome (enumerate E) = Ok reqs ->
     getMyPackageLicense E = Raise e ->
     getdepsLicenses E
     = (events (enumerate E) ++ [EGetMyPackageLicense], Raise e)).
Proof.
  split.
  - intros f e Hnz Hopen Hparse.
    rewrite getdepsLicenses_cases, (enumerate_fallback E Hnz), Hopen, Hparse.
    now step.
  - intros reqs e Henum Hmy.
    now rewrite getdepsLicenses_cases, Henum, Hmy.
Qed.

Lemma early_failures_stop_the_run_witness :
  (fst (popen MoreSamples.unparsableEnv probe_argv) <> 0
   /\ open_ MoreSamples.unparsableEnv "requirements.txt" "r"
      = Ok (mkFile "requirements.txt"
                   (String.concat Samples.nl ["foo"; "bar"; "foo"]))
   /\ requirements_parse MoreSamples.unparsableEnv
        (mkFile "requirements.txt"
                (String.concat Samples.nl ["foo"; "bar"; "foo"]))
      = Raise (ExternalError "ValueError")
   /\ outcome (enumerate MoreSamples.noProjectLicenseEnv)
      = Ok [Some "foo"; Some "bar"; Some "baz"]
   /\ getMyPackageLicense MoreSamples.noProjectLicenseEnv
      = Raise (ExternalError "FileNotFoundError"))
  /\ getdepsLicenses MoreSamples.unparsableEnv
     = (fallback_prefix
        ++ [EParseRequirements
              (String.concat Samples.nl ["foo"; "bar"; "foo"])],
        Raise (ExternalError "ValueError"))
  /\ getdepsLicenses MoreSamples.noProjectLicenseEnv
     = (events (enumerate MoreSamples.noProjectLicenseEnv)
        ++ [EGetMyPackageLicense],
        Raise (ExternalError "FileNotFoundError")).
Proof.
  assert (Hnz : fst (popen MoreSamples.unparsableEnv probe_argv) <> 0)
    by (vm_compute; discriminate).
  split; [repeat split; exact Hnz |].
  split.
  - exact (proj1 (early_failures_stop_the_run MoreSamples.unparsableEnv)
             (mkFile "requirements.txt"
                (String.concat Samples.nl ["foo"; "bar"; "foo"]))
             (ExternalError "ValueError") Hnz eq_refl eq_refl).
  - exact (proj2 (early_failures_stop_the_run MoreSamples.noProjectLicenseEnv)
             [Some "foo"; Some "bar"; Some "baz"]
             (ExternalError "FileNotFoundError") eq_refl eq_refl).
Defined.

(** ** More on [cli] *)

(** [formatMap] holds the five entries of lines 86-87 and no other. *)
Lemma formatMap_lookup_Some (E : Env) fmt render :
  formatMap E !! fmt = Some render <-> (fmt, render) ∈ format_entries E.
Proof.
  unfold formatMap, format_entries.
  rewrite !lookup_insert_Some, lookup_singleton_Some.
  rewrite !elem_of_cons, elem_of_nil.
  split.
  - intros [[<- <-] | [_ [[<- <-] | [_ [[<- <-] | [_ [[<- <-] | [_ [<- <-]]]]]]]]];
      auto 10.
  - intros [[= -> ->] | [[= -> ->] | [[= -> ->] | [[= -> ->] | [[= -> ->] | []]]]]].
    + now left.
    + right; split; [discriminate |]. now left.
    + right; split; [discriminate |]. right; split; [discriminate |].
      now left.
    + right; split; [discriminate |]. right; split; [discriminate |].
      right; split; [discriminate |]. now left.
    + right; split; [discriminate |]. right; split; [discriminate |].
      right; split; [discriminate |]. right; split; [discriminate |].
      now split.
Qed.

Lemma getdepsLicenses_no_print (E : Env) :
  List.filter is_print (events (getdepsLicenses E)) = [].
Proof.
  destruct (getdepsLicenses_tail E) as (tail & -> & Htail).
  rewrite List.filter_app, (filter_pipeline_calls is_print tail), app_nil_r;
    [| intros [] Hev; simpl in *; try reflexivity; discriminate Hev
     | exact Htail].
  destruct (enumerate_events_shape E)
    as [[_ ->] | [_ [-> | [text ->]]]]; reflexivity.
Qed.

Lemma cli_report_ok (E : Env) args to render out :
  parse_args E = Ok args ->
  outcome (open_target E args) = Ok to ->
  chosen_formatter E args = Some render ->
  outcome (getdepsLicenses E) = Ok out ->
  cli E = (events (open_target E args) ++ events (getdepsLicenses E)
           ++ [EPrint to (render out)],
           Ok tt).
Proof.
  intros Hargs Hto Hfmt Hout.
  rewrite (cli_after_target E args to Hargs Hto).
  unfold chosen_formatter in Hfmt.
  destruct (format args) as [fmt |]; [rewrite Hfmt | injection Hfmt as <-];
    rewrite (bind_ok _ _ _ Hout); unfold print; now step.
Qed.

(** X5: with a [--format] among json, markdown, csv, ansi and simple,
    an output stream that opened and a report from [getdepsLicenses],
    [cli] prints what the formatter of that name makes of the report,
    to that stream, and returns. *)
Theorem cli_dispatches_named_format (E : Env) args to fmt render out :
  parse_args E = Ok args ->
  outcome (open_target E args) = Ok to ->
  format args = Some fmt ->
  (fmt, render) ∈ format_entries E ->
  outcome (getdepsLicenses E) = Ok out ->
  cli E = (events (open_target E args) ++ events (getdepsLicenses E)
           ++ [EPrint to (render out)],
           Ok tt).
Proof.
  intros Hargs Hto Hfmt Hentry Hout.
  apply (cli_report_ok E args to render out Hargs Hto); [| exact Hout].
  unfold chosen_formatter. rewrite Hfmt.
  now apply formatMap_lookup_Some.
Qed.

Lemma cli_dispatches_named_format_witness :
  (parse_args MoreSamples.markdownFileEnv
   = Ok (mkArgs (Some "markdown") (Some "report.md"))
   /\ outcome (open_target MoreSamples.markdownFileEnv
                 (mkArgs (Some "markdown") (Some "report.md")))
      = Ok (ToFile (mkFile "report.md" ""))
   /\ ("markdown", formatter_markdown MoreSamples.markdownFileEnv)
        ∈ format_entries MoreSamples.markdownFileEnv
   /\ outcome (getdepsLicenses MoreSamples.markdownFileEnv)
      = Ok (map (iteration_record MoreSamples.markdownFileEnv permissive)
                (map Samples.metadata [Some "foo"; Some "bar"; Some "baz"])))
  /\ cli MoreSamples.markdownFileEnv
     = (events (open_target MoreSamples.markdownFileEnv
                  (mkArgs (Some "markdown") (Some "report.md")))
        ++ events (getdepsLicenses MoreSamples.markdownFileEnv)
        ++ [EPrint (ToFile (mkFile "report.md" "")) "markdown:foo,bar,baz"],
        Ok tt).
Proof.
  assert (Hentry : ("markdown", formatter_markdown MoreSamples.markdownFileEnv)
                     ∈ format_entries MoreSamples.markdownFileEnv).
  { apply list_elem_of_further, list_elem_of_here. }
  split; [repeat split; exact Hentry |].
  exact (cli_dispatches_named_format MoreSamples.markdownFileEnv
           (mkArgs (Some "markdown") (Some "report.md"))
           (ToFile (mkFile "report.md" "")) "markdown"
           (formatter_markdown MoreSamples.markdownFileEnv)
           (map (iteration_record MoreSamples.markdownFileEnv permissive)
              (map Samples.metadata [Some "foo"; Some "bar"; Some "baz"]))
           eq_refl eq_refl eq_refl Hentry eq_refl).
Defined.

(** X6: [--format simple] and no [--format] are the same run of [cli],
    whatever [--file] is and whatever the collaborators do: the default
    announced by FORMAT_HELP is the one implemented. *)
Theorem cli_simple_is_default (E : Env) (target : option string) :
  cli (with_args E (mkArgs (Some "simple") target))
  = cli (with_args E (mkArgs None target)).
Proof.
  unfold cli. cbn [parse_args with_args]. rewrite !bind_lift_ok.
  cbn [format].
  assert (Hsimple : formatMap (with_args E (mkArgs (Some "simple") target))
                      !! "simple"
                    = Some (formatter_simple E)).
  { apply formatMap_lookup_Some. unfold format_entries.
    cbn [with_args formatter_simple formatter_json formatter_markdown
         formatter_csv formatter_ansi].
    repeat first [apply list_elem_of_here | apply list_elem_of_further]. }
  rewrite Hsimple. reflexivity.
Qed.

(** X7: a run of [cli] that returns has printed exactly once, the
    rendering of the report, and to the stream selected by [--file]:
    standard output when it is omitted, else the file [open] returned
    for that name in mode w. *)
Theorem cli_prints_once_to_target (E : Env) args to render out :
  parse_args E = Ok args ->
  outcome (open_target E args) = Ok to ->
  chosen_formatter E args = Some render ->
  outcome (getdepsLicenses E) = Ok out ->
  outcome (cli E) = Ok tt /\
  List.filter is_print (events (cli E)) = [EPrint to (render out)] /\
  match file args with
  | None => to = Stdout
  | Some path => exists f, open_ E path "w" = Ok f /\ to = ToFile f
  end.
Proof.
  intros Hargs Hto Hfmt Hout.
  rewrite (cli_report_ok E args to render out Hargs Hto Hfmt Hout). step.
  split; [reflexivity |]. split.
  - rewrite !List.filter_app, open_target_events, getdepsLicenses_no_print.
    reflexivity.
  - revert Hto. unfold open_target.
    destruct (file args) as [path |]; step; [| now intros [= <-]].
    destruct (open_ E path "w") as [f | e]; step; [| discriminate].
    intros [= <-]. now exists f.
Qed.

Lemma cli_prints_once_to_target_witness :
  (parse_args MoreSamples.markdownFileEnv
   = Ok (mkArgs (Some "markdown") (Some "report.md"))
   /\ outcome (open_target MoreSamples.markdownFileEnv
                 (mkArgs (Some "markdown") (Some "report.md")))
      = Ok (ToFile (mkFile "report.md" ""))
   /\ chosen_formatter MoreSamples.markdownFileEnv
        (mkArgs (Some "markdown") (Some "report.md"))
      = Some (formatter_markdown MoreSamples.markdownFileEnv)
   /\ outcome (getdepsLicenses MoreSamples.markdownFileEnv)
      = Ok (map (iteration_record MoreSamples.markdownFileEnv permissive)
                (map Samples.metadata [Some "foo"; Some "bar"; Some "baz"])))
  /\ outcome (cli MoreSamples.markdownFileEnv) = Ok tt
  /\ List.filter is_print (events (cli MoreSamples.markdownFileEnv))
     = [EPrint (ToFile (mkFile "report.md" "")) "markdown:foo,bar,baz"]
  /\ exists f, open_ MoreSamples.markdownFileEnv "report.md" "w" = Ok f /\
               ToFile (mkFile "report.md" "") = ToFile f.
Proof.
  split; [repeat split |].
  exact (cli_prints_once_to_target MoreSamples.markdownFileEnv
           (mkArgs (Some "markdown") (Some "report.md"))
           (ToFile (mkFile "report.md" ""))
           (formatter_markdown MoreSamples.markdownFileEnv)
           (map (iteration_record MoreSamples.markdownFileEnv permissive)
              (map Samples.metadata [Some "foo"; Some "bar"; Some "baz"]))
           eq_refl eq_refl eq_refl eq_refl).
Defined.

(** X8: when [--file] names a file, opening it for writing is the first
    thing [cli] does after parsing its arguments: before the format is
    checked and before any dependency is looked at. So the file is
    opened, and an existing one emptied, also by a run that then rejects
    the format or fails to build the report. *)
Theorem cli_opens_file_first (E : Env) args path :
  parse_args E = Ok args ->
  file args = Some path ->
  exists rest, events (cli E) = EOpen path "w" :: rest.
Proof.
  intros Hargs Hfile. unfold cli, open_target.
  rewrite Hargs, bind_lift_ok. cbv beta. rewrite Hfile. step.
  eexists. reflexivity.
Qed.

Lemma cli_opens_file_first_witness :
  (parse_args Samples.xmlNoFileEnv
   = Ok (mkArgs (Some "xml") (Some "/nonexistent/report.txt"))
   /\ file (mkArgs (Some "xml") (Some "/nonexistent/report.txt"))
      = Some "/nonexistent/report.txt")
  /\ exists rest,
       events (cli Samples.xmlNoFileEnv)
       = EOpen "/nonexistent/report.txt" "w" :: rest.
Proof.
  split; [split; reflexivity |].
  exact (cli_opens_file_first Samples.xmlNoFileEnv
           (mkArgs (Some "xml") (Some "/nonexistent/report.txt"))
           "/nonexistent/report.txt" eq_refl eq_refl).
Defined.

(** ** More on the poetry branch *)

(** X9: the exit status of [poetry show] is never looked at: two worlds
    in which the probe succeeds and [poetry show] prints the same text
    enumerate the same names, whatever status the command returns. A
    failed [poetry show] is parsed like a successful one. *)
Theorem poetry_show_status_ignored (E1 E2 : Env) :
  fst (popen E1 probe_argv) = 0 ->
  fst (popen E2 probe_argv) = 0 ->
  snd (popen E1 show_argv) = snd (popen E2 show_argv) ->
  enumerate E1 = enumerate E2.
Proof.
  intros H1 H2 Htext.
  now rewrite (enumerate_poetry E1 H1), (enumerate_poetry E2 H2), Htext.
Qed.

Lemma poetry_show_status_ignored_witness :
  (fst (popen Samples.poetryEnv probe_argv) = 0
   /\ fst (popen MoreSamples.showFailsEnv probe_argv) = 0
   /\ snd (popen Samples.poetryEnv show_argv)
      = snd (popen MoreSamples.showFailsEnv show_argv)
   /\ fst (popen Samples.poetryEnv show_argv) = 0
   /\ fst (popen MoreSamples.showFailsEnv show_argv) = 1)
  /\ enumerate Samples.poetryEnv = enumerate MoreSamples.showFailsEnv.
Proof.
  split; [repeat split |].
  exact (poetry_show_status_ignored Samples.poetryEnv
           MoreSamples.showFailsEnv eq_refl eq_refl eq_refl).
Defined.

Module WordFacts.
Import PyStr.

Lemma append_nil_l s : "" +:+ s = s.
Proof. reflexivity. Qed.

Lemma append_cons c s t : String c s +:+ t = String c (s +:+ t).
Proof. reflexivity. Qed.

Lemma append_nil_r s : s +:+ "" = s.
Proof.
  induction s as [| c s IH]; [reflexivity |].
  now rewrite append_cons, IH.
Qed.

Lemma append_snoc cur c w : snoc cur c +:+ w = cur +:+ String c w.
Proof.
  unfold snoc. induction cur as [| a cur IH]; [reflexivity |].
  now rewrite !append_cons, IH.
Qed.

Lemma append_nonempty_l a b : a <> "" -> a +:+ b <> "".
Proof. destruct a; [congruence | discriminate]. Qed.

(** The first element of [split_from cur s], taken apart. *)
Lemma split_from_head s : forall cur p ps,
  split_from cur s = p :: ps ->
  exists pre w post,
    s = pre +:+ w +:+ post /\ (cur <> "" -> pre = "") /\
    blank pre = true /\ wordlike w = true /\ p = cur +:+ w /\ p <> "" /\
    word_end post.
Proof.
  induction s as [| c s IH]; intros cur p ps Hsplit; simpl in Hsplit.
  - destruct cur as [| a cur]; [discriminate |].
    injection Hsplit as <- _. exists "", "", "".
    rewrite !append_nil_r. repeat split; discriminate.
  - destruct (isspace c) eqn:Hc.
    + destruct cur as [| a cur]; simpl in Hsplit.
      * destruct (IH "" p ps Hsplit)
          as (pre & w & post & -> & _ & Hpre & Hw & Hp & Hne & Hend).
        exists (String c pre), w, post.
        rewrite append_cons. cbn [blank]. rewrite Hc.
        repeat split; try assumption. congruence.
      * injection Hsplit as <- _. exists "", "", (String c s).
        rewrite !append_nil_r, !append_nil_l.
        repeat split; try discriminate. exact Hc.
    + destruct (IH (snoc cur c) p ps Hsplit)
        as (pre & w & post & -> & Hcur & _ & Hw & Hp & Hne & Hend).
      rewrite (Hcur (PyStrFacts.snoc_nonempty cur c)).
      exists "", (String c w), post.
      rewrite !append_nil_l, append_cons. cbn [wordlike]. rewrite Hc, Hw.
      rewrite append_snoc in Hp. repeat split; assumption.
Qed.

(** A word followed by whitespace or nothing is split off whole. *)
Lemma split_from_word w : forall cur post,
  wordlike w = true -> word_end post -> cur +:+ w <> "" ->
  head (split_from cur (w +:+ post)) = Some (cur +:+ w).
Proof.
  induction w as [| a w IH]; intros cur post Hw Hend Hne.
  - rewrite append_nil_l. rewrite append_nil_r in *.
    destruct cur as [| b cur]; [congruence |].
    destruct post as [| c post]; simpl; [reflexivity |].
    simpl in Hend. now rewrite Hend.
  - cbn [wordlike] in Hw. apply andb_true_iff in Hw as [Ha Hw].
    apply negb_true_iff in Ha. rewrite append_cons. cbn [split_from].
    rewrite Ha.
    rewrite (IH (snoc cur a) post Hw Hend), append_snoc; [reflexivity |].
    apply append_nonempty_l, PyStrFacts.snoc_nonempty.
Qed.

Lemma split_from_skip pre s :
  blank pre = true -> split_from "" (pre +:+ s) = split_from "" s.
Proof.
  induction pre as [| c pre IH]; [reflexivity |].
  cbn [blank]. intros Hb. apply andb_true_iff in Hb as [Hc Hpre].
  rewrite append_cons. cbn [split_from]. rewrite Hc.
  exact (IH Hpre).
Qed.

(** [line.split()[0]] is the first word of the line, and nothing else
    is. *)
Lemma head_split_first_word line w :
  head (split line) = Some w <-> first_word line w.
Proof.
  unfold split, first_word. split.
  - destruct (split_from "" line) as [| p ps] eqn:Hsplit; [discriminate |].
    intros [= ->].
    destruct (split_from_head line "" w ps Hsplit)
      as (pre & w' & post & -> & _ & Hpre & Hw & Hp & Hne & Hend).
    rewrite append_nil_l in Hp. subst w'.
    now exists pre, post.
  - intros (pre & post & -> & Hpre & Hw & Hne & Hend).
    rewrite (split_from_skip pre _ Hpre).
    exact (split_from_word w "" post Hw Hend Hne).
Qed.

End WordFacts.

(** X10: when the poetry branch returns, it returns one name per line of
    [poetry show], in order, and each name is the first word of its
    line: a non-empty string without whitespace that follows the line's
    leading whitespace and is followed by whitespace or the end of the
    line. Version, description and anything else on the line are
    dropped. *)
Theorem poetry_names_are_first_words (E : Env) reqs :
  fst (popen E probe_argv) = 0 ->
  outcome (enumerate E) = Ok reqs ->
  Forall2 (fun line r => exists w, r = Some w /\ first_word line w)
          (PyStr.splitlines (snd (popen E show_argv))) reqs.
Proof.
  intros Hz. rewrite (enumerate_poetry E Hz). step.
  destruct (poetry_loop_outcome (PyStr.splitlines (snd (popen E show_argv))))
    as [[Hall ->] | [_ ->]]; [| discriminate].
  intros [= <-]. clear Hz.
  induction Hall as [| line rest Hline _ IH]; simpl; constructor;
    [| exact IH].
  destruct (PyStrFacts.split_blank_false _ Hline) as (p & ps & Hsplit).
  exists p. rewrite Hsplit. split; [reflexivity |].
  apply WordFacts.head_split_first_word. now rewrite Hsplit.
Qed.

Lemma poetry_names_are_first_words_witness :
  (fst (popen Samples.poetryEnv probe_argv) = 0
   /\ outcome (enumerate Samples.poetryEnv)
      = Ok [Some "foo"; Some "bar"; Some "baz"])
  /\ Forall2 (fun line r => exists w, r = Some w /\ first_word line w)
       (PyStr.splitlines (snd (popen Samples.poetryEnv show_argv)))
       [Some "foo"; Some "bar"; Some "baz"].
Proof.
  split; [split; reflexivity |].
  exact (poetry_names_are_first_words Samples.poetryEnv
           [Some "foo"; Some "bar"; Some "baz"] eq_refl eq_refl).
Defined.

(** X11: both loops treat a list made of two parts as the first part
    followed by the second, carrying over nothing but the list built
    so far; the poetry loop does not start the second part when the
    first one failed. *)
Theorem loops_compose (E : Env) :
  (forall lines1 lines2 reqs,
     poetry_loop (lines1 ++ lines2) reqs
     = (let* reqs' := poetry_loop lines1 reqs in poetry_loop lines2 reqs'))
  /\
  (forall myLice packages1 packages2 depsLicenses,
     assemble E myLice (packages1 ++ packages2) depsLicenses
     = (let* depsLicenses' := assemble E myLice packages1 depsLicenses in
        assemble E myLice packages2 depsLicenses')).
Proof.
  split.
  - induction lines1 as [| line rest IH]; intros lines2 reqs; simpl.
    + now rewrite bind_ret.
    + rewrite bind_assoc.
      destruct (PyStr.split line) as [| p ps]; unfold index0;
        [reflexivity |].
      rewrite !bind_ret. apply IH.
  - intros myLice packages1 packages2 acc.
    rewrite !assemble_eq.
    rewrite (bind_ok _ _ (acc ++ map (iteration_record E myLice) packages1))
      by reflexivity.
    rewrite assemble_eq. step.
    now rewrite flat_map_app, map_app, app_assoc.
Qed.

Module LineFacts.
Import PyStr.

Lemma splitlines_from_CR cur d rest :
  splitlines_from cur (String "013" (String d rest))
  = cur :: splitlines_from ""
             (if Ascii.eqb d "010" then rest else String d rest).
Proof. destruct d as [[] [] [] [] [] [] [] []]; reflexivity. Qed.

Lemma ends_open_last c :
  ends_open (String c "") = true ->
  Ascii.eqb c "013" = false /\ islinebreak c = false.
Proof.
  unfold ends_open. cbn [last_char]. intros H.
  apply andb_true_iff in H as [Hcr Hlb].
  now apply negb_true_iff in Hcr, Hlb.
Qed.

(** A newline appended to a text that ends in the middle of a line
    closes that line and opens no other. *)
Lemma splitlines_from_final_newline s : forall cur,
  (s = "" /\ cur <> "") \/ ends_open s = true ->
  splitlines_from cur (s +:+ String "010" "") = splitlines_from cur s.
Proof.
  induction s as [| c s IH]; intros cur Hopen.
  - destruct Hopen as [[_ Hne] | Hopen]; [| discriminate Hopen].
    destruct cur; [congruence | reflexivity].
  - destruct Hopen as [[Hnil _] | Hopen]; [discriminate Hnil |].
    rewrite WordFacts.append_cons.
    destruct s as [| d rest].
    + apply ends_open_last in Hopen as [Hcr Hlb].
      cbn [splitlines_from]. rewrite Hcr, Hlb.
      apply IH. left. split; [reflexivity | apply PyStrFacts.snoc_nonempty].
    + assert (Hrest : forall cur',
                splitlines_from cur' (String d rest +:+ String "010" "")
                = splitlines_from cur' (String d rest)).
      { intros cur'. apply IH. right. exact Hopen. }
      destruct (Ascii.eqb_spec c "013") as [-> | Hcr].
      * rewrite WordFacts.append_cons, !splitlines_from_CR.
        destruct (Ascii.eqb_spec d "010") as [-> | Hd].
        -- specialize (Hrest ""). rewrite WordFacts.append_cons in Hrest.
           cbn in Hrest. injection Hrest as ->. reflexivity.
        -- rewrite <- WordFacts.append_cons. now rewrite Hrest.
      * apply Ascii.eqb_neq in Hcr. cbn [splitlines_from]. rewrite Hcr.
        destruct (islinebreak c); now rewrite Hrest.
Qed.

End LineFacts.

(** X12: the newline that ends the last line of [poetry show]'s output
    adds no empty line: when the text before it ends in the middle of a
    line, the enumerator works on exactly the lines of that text, so a
    well-formed listing does not run into the IndexError of an empty
    line. *)
Theorem final_newline_adds_no_line (E : Env) (text : string) :
  fst (popen E probe_argv) = 0 ->
  snd (popen E show_argv) = text +:+ String "010" "" ->
  ends_open text = true ->
  PyStr.splitlines (snd (popen E show_argv)) = PyStr.splitlines text /\
  outcome (enumerate E) = outcome (poetry_loop (PyStr.splitlines text) []).
Proof.
  intros Hz Htext Hopen.
  assert (Hlines : PyStr.splitlines (snd (popen E show_argv))
                   = PyStr.splitlines text).
  { rewrite Htext. unfold PyStr.splitlines.
    apply LineFacts.splitlines_from_final_newline. now right. }
  split; [exact Hlines |].
  rewrite (enumerate_poetry E Hz). step. now rewrite Hlines.
Qed.

Lemma final_newline_adds_no_line_witness :
  (fst (popen MoreSamples.finalNewlineEnv probe_argv) = 0
   /\ snd (popen MoreSamples.finalNewlineEnv show_argv)
      = String.concat Samples.nl ["foo 1.0 A"; "bar 2.0 B"]
        +:+ String "010" ""
   /\ ends_open (String.concat Samples.nl ["foo 1.0 A"; "bar 2.0 B"]) = true)
  /\ PyStr.splitlines (snd (popen MoreSamples.finalNewlineEnv show_argv))
     = PyStr.splitlines (String.concat Samples.nl ["foo 1.0 A"; "bar 2.0 B"])
  /\ outcome (enumerate MoreSamples.finalNewlineEnv)
     = outcome (poetry_loop
                  (PyStr.splitlines
                     (String.concat Samples.nl ["foo 1.0 A"; "bar 2.0 B"]))
                  []).
Proof.
  split; [repeat split |].
  exact (final_newline_adds_no_line MoreSamples.finalNewlineEnv
           (String.concat Samples.nl ["foo 1.0 A"; "bar 2.0 B"])
           eq_refl eq_refl eq_refl).
Defined.

(** ** Runs of [cli] that fail, and runs that return *)

Lemma cli_target_fails (E : Env) args e :
  parse_args E = Ok args ->
  outcome (open_target E args) = Raise e ->
  cli E = (events (open_target E args), Raise e).
Proof.
  intros Hargs He. unfold cli. rewrite Hargs, bind_lift_ok.
  now rewrite (bind_raise _ _ _ He).
Qed.

(** X13: when [getdepsLicenses] raises, a [cli] whose format is valid
    or omitted and whose output stream opened ends with the same
    exception and has printed nothing, neither a partial report nor
    the help text. *)
Theorem cli_prints_nothing_on_failure (E : Env) args to render e :
  parse_args E = Ok args ->
  outcome (open_target E args) = Ok to ->
  chosen_formatter E args = Some render ->
  outcome (getdepsLicenses E) = Raise e ->
  outcome (cli E) = Raise e /\
  List.filter is_print (events (cli E)) = [].
Proof.
  intros Hargs Hto Hfmt Hfail.
  assert (Hmatch : match format args with
                   | None => True
                   | Some fmt => formatMap E !! fmt = Some render
                   end).
  { unfold chosen_formatter in Hfmt. now destruct (format args). }
  rewrite (cli_report_fails E args to render e Hargs Hto Hmatch Hfail). step.
  split; [reflexivity |].
  now rewrite List.filter_app, open_target_events, getdepsLicenses_no_print.
Qed.

Lemma cli_prints_nothing_on_failure_witness :
  (parse_args Samples.gapEnv = Ok Samples.no_args
   /\ outcome (open_target Samples.gapEnv Samples.no_args) = Ok Stdout
   /\ chosen_formatter Samples.gapEnv Samples.no_args
      = Some (formatter_simple Samples.gapEnv)
   /\ outcome (getdepsLicenses Samples.gapEnv) = Raise IndexError)
  /\ outcome (cli Samples.gapEnv) = Raise IndexError
  /\ List.filter is_print (events (cli Samples.gapEnv)) = [].
Proof.
  split; [repeat split |].
  exact (cli_prints_nothing_on_failure Samples.gapEnv Samples.no_args Stdout
           (formatter_simple Samples.gapEnv) IndexError
           eq_refl eq_refl eq_refl eq_refl).
Defined.

(** X15: [cli] never returns without having printed a report: a run
    that returns parsed its arguments, opened its output stream, had a
    valid or omitted format and a report from [getdepsLicenses], and its
    one print is the rendering of that report on that stream. *)
Theorem cli_returns_only_after_report (E : Env) (u : unit) :
  outcome (cli E) = Ok u ->
  exists args to render out,
    parse_args E = Ok args /\
    outcome (open_target E args) = Ok to /\
    chosen_formatter E args = Some render /\
    outcome (getdepsLicenses E) = Ok out /\
    List.filter is_print (events (cli E)) = [EPrint to (render out)].
Proof.
  intros Hok.
  destruct (parse_args E) as [args | e0] eqn:Hargs;
    [| unfold cli in Hok; rewrite Hargs, bind_lift_raise in Hok;
       discriminate Hok].
  destruct (outcome (open_target E args)) as [to | e1] eqn:Hto;
    [| rewrite (cli_target_fails E args e1 Hargs Hto) in Hok;
       discriminate Hok].
  assert (Hchosen : exists render, chosen_formatter E args = Some render).
  { unfold chosen_formatter.
    destruct (format args) as [fmt |] eqn:Hfmt; [| eauto].
    destruct (formatMap E !! fmt) as [render |] eqn:Hlook; [eauto |].
    rewrite (cli_after_target E args to Hargs Hto), Hfmt, Hlook in Hok.
    unfold print, sysexit in Hok. revert Hok. step. discriminate. }
  destruct Hchosen as [render Hfmt].
  destruct (outcome (getdepsLicenses E)) as [out | e2] eqn:Hout.
  - exists args, to, render, out. repeat split; try assumption.
    rewrite (cli_report_ok E args to render out Hargs Hto Hfmt Hout). step.
    now rewrite !List.filter_app, open_target_events,
      getdepsLicenses_no_print.
  - assert (Hmatch : match format args with
                     | None => True
                     | Some fmt => formatMap E !! fmt = Some render
                     end).
    { unfold chosen_formatter in Hfmt. now destruct (format args). }
    rewrite (cli_report_fails E args to render e2 Hargs Hto Hmatch Hout)
      in Hok.
    discriminate Hok.
Qed.

Lemma cli_returns_only_after_report_witness :
  outcome (cli MoreSamples.markdownFileEnv) = Ok tt
  /\ exists args to render out,
       parse_args MoreSamples.markdownFileEnv = Ok args /\
       outcome (open_target MoreSamples.markdownFileEnv args) = Ok to /\
       chosen_formatter MoreSamples.markdownFileEnv args = Some render /\
       outcome (getdepsLicenses MoreSamples.markdownFileEnv) = Ok out /\
       List.filter is_print (events (cli MoreSamples.markdownFileEnv))
       = [EPrint to (render out)].
Proof.
  split; [reflexivity |].
  exact (cli_returns_only_after_report MoreSamples.markdownFileEnv tt
           eq_refl).
Defined.
